(** * Tabular feature composition of merlin_models.torch

    A shallow embedding of [merlin_models/torch/features/tabular.py]
    ([TabularFeatures]) together with the pieces of the embedding layer that
    its tests exercise ([TableConfig], [EmbeddingFeatures], [SoftEmbedding]).

    Python values are modelled as follows.
    - An exception is a constructor of [PyExc]; a computation that may raise
      returns [Res].
    - Code that allocates objects or calls external factories runs in the
      monad [Py], which threads an allocation counter (object identities) and
      the trace of external calls.
    - A [dict] is an insertion-ordered association list with unique keys.
    - A Python list object carries its identity, so that [is] / [is not] can
      be evaluated the way the interpreter does. *)

From Stdlib Require Import List String ZArith Bool Lia.
From Stdlib Require Import QArith.
Import ListNotations.

Local Open Scope string_scope.
Local Open Scope list_scope.
Local Open Scope Z_scope.

(** ** Exceptions and results *)

Inductive PyExc : Type :=
| AssertionError (msg : string)
| IndexError (msg : string)
| ValueError (msg : string)
| OtherException (cls msg : string).

Inductive Res (A : Type) : Type :=
| Ok (a : A)
| Raise (e : PyExc).
Arguments Ok {A} a.
Arguments Raise {A} e.

Definition res_bind {A B} (r : Res A) (k : A -> Res B) : Res B :=
  match r with
  | Ok a => k a
  | Raise e => Raise e
  end.

Declare Scope res_scope.
Delimit Scope res_scope with res.
Notation "x <- c1 ;; c2" := (res_bind c1 (fun x => c2))
  (at level 61, c1 at next level, right associativity) : res_scope.

(** [needle in hay] on Python strings. *)
Fixpoint str_contains (needle hay : string) : bool :=
  if String.prefix needle hay then true
  else match hay with
       | EmptyString => false
       | String _ rest => str_contains needle rest
       end.

(** ** The interpreter state: object identities and external calls *)

Record World (E : Type) : Type := mkWorld {
  next_id : nat;
  trace : list E
}.
Arguments mkWorld {E} _ _.
Arguments next_id {E} _.
Arguments trace {E} _.

Definition Py (E A : Type) : Type := World E -> Res A * World E.

Definition py_ret {E A} (a : A) : Py E A := fun w => (Ok a, w).

Definition py_bind {E A B} (c : Py E A) (k : A -> Py E B) : Py E B :=
  fun w =>
    match c w with
    | (Ok a, w') => k a w'
    | (Raise e, w') => (Raise e, w')
    end.

Definition py_raise {E A} (e : PyExc) : Py E A := fun w => (Raise e, w).

(** An external call: it is recorded in the trace, then its result (a value
    or an exception) is delivered. *)
Definition py_extern {E A} (ev : E) (r : Res A) : Py E A :=
  fun w => (r, mkWorld (next_id w) (trace w ++ [ev])).

Declare Scope py_scope.
Delimit Scope py_scope with py.
Notation "x <- c1 ;; c2" := (py_bind c1 (fun x => c2))
  (at level 61, c1 at next level, right associativity) : py_scope.
Notation "c1 ;; c2" := (py_bind c1 (fun _ => c2))
  (at level 61, right associativity) : py_scope.

(** ** List objects *)

Record pylist (A : Type) : Type := mkPyList {
  ob_id : nat;
  ob_items : list A
}.
Arguments mkPyList {A} _ _.
Arguments ob_id {A} _.
Arguments ob_items {A} _.

(** The display [[]]: every evaluation allocates a new, empty list object. *)
Definition new_list {E A} : Py E (pylist A) :=
  fun w => (Ok (mkPyList (next_id w) []), mkWorld (S (next_id w)) (trace w)).

(** [l.append(x)] mutates the object in place: same identity, one more item. *)
Definition append {A} (l : pylist A) (x : A) : pylist A :=
  mkPyList (ob_id l) (ob_items l ++ [x]).

(** [a is not b] compares identities, never contents. *)
Definition py_is_not {A} (a b : pylist A) : bool :=
  negb (Nat.eqb (ob_id a) (ob_id b)).

(** [l[i]] for a non-negative index. *)
Definition getitem {A} (l : list A) (i : nat) : Res A :=
  match nth_error l i with
  | Some x => Ok x
  | None => Raise (IndexError "list index out of range")
  end.

(** ** Dictionaries *)

Module PyDict.
Section Dict.
Context {V : Type}.

Definition t : Type := list (string * V).

Definition empty : t := [].

Definition keys (d : t) : list string := map fst d.

Fixpoint get (d : t) (k : string) : option V :=
  match d with
  | [] => None
  | (k', v) :: rest => if String.eqb k k' then Some v else get rest k
  end.

Definition mem (d : t) (k : string) : bool :=
  match get d k with Some _ => true | None => false end.

(** [d[k] = v]: an existing key keeps its position, a new key goes last. *)
Fixpoint setitem (d : t) (k : string) (v : V) : t :=
  match d with
  | [] => [(k, v)]
  | (k', v') :: rest =>
      if String.eqb k k' then (k', v) :: rest
      else (k', v') :: setitem rest k v
  end.

(** [d.update(other)]: the items of [other] are stored one by one, in
    the iteration order of [other]. *)
Definition update (d other : t) : t :=
  fold_left (fun acc kv => setitem acc (fst kv) (snd kv)) other d.

(** The keys of a Python dict are pairwise distinct. *)
Definition wf (d : t) : Prop := NoDup (keys d).

End Dict.
Arguments t : clear implicits.
End PyDict.

(** ** External collaborators of the composer

    [tabular.py] imports [TabularModule], [ContinuousFeatures],
    [EmbeddingFeatures], [ColumnGroup] and [Tag]; none of their code is part
    of the composer.  Whatever they do is a parameter of the development. *)

(** [nvtabular.tag.Tag], an enumeration. *)
Inductive Tag : Type :=
| CONTINUOUS
| CATEGORICAL
| TEXT_TOKENIZED
| ITEM_ID
| OTHER_TAG (name : string).

(** A tag selector as [from_column_group] receives it: [None], one member of
    the enumeration, or a list of members. *)
Inductive TagsArg : Type :=
| TagsNone
| TagsOne (t : Tag)
| TagsList (l : list Tag).

(** The truth value Python gives a tag selector in [if tags:]. *)
Definition tags_truth (a : TagsArg) : bool :=
  match a with
  | TagsNone => false
  | TagsOne _ => true
  | TagsList [] => false
  | TagsList (_ :: _) => true
  end.

Class Collaborators : Type := {
  (** the named-tensor mapping given to a forward pass, and what a module
      returns for it (a mapping, or a tensor once aggregated) *)
  Inputs : Type;
  Outputs : Type;
  (** shape descriptions *)
  InputSize : Type;
  Size : Type;
  OutputSize : Type;
  (** aggregation strategies, column groups *)
  Aggregation : Type;
  ColumnGroup : Type;
  (** input modules *)
  InputModule : Type;
  (** [bool(m)]: true unless the class of [m] defines [__bool__] or
      [__len__] otherwise *)
  truth : InputModule -> bool;
  (** [m(inputs, merge_with=...)] *)
  call : InputModule -> Inputs -> option (list InputModule) -> Res Outputs;
  (** [m.forward_output_size(input_size)] *)
  module_forward_output_size : InputModule -> InputSize -> Res (PyDict.t Size);
  (** [TabularModule.forward_output_size], reached through [super()]; it
      reads the aggregation of the instance *)
  super_forward_output_size :
    option Aggregation -> PyDict.t Size -> Res OutputSize;
  (** the two factories used by [from_column_group]; each returns a module
      or [None] *)
  ContinuousFeatures_from_column_group :
    ColumnGroup -> TagsArg -> TagsArg -> Res (option InputModule);
  EmbeddingFeatures_from_column_group :
    ColumnGroup -> TagsArg -> TagsArg -> Res (option InputModule)
}.

(** The constructions a run can ask of other classes.  The last one is what
    the text branch of [from_column_group], commented out in the source,
    would ask of [TransformersTextEmbedding]. *)
Inductive Construction `{Collaborators} : Type :=
| BuildContinuous (column_group : ColumnGroup) (tags tags_to_filter : TagsArg)
| BuildEmbedding (column_group : ColumnGroup) (tags tags_to_filter : TagsArg)
| BuildTextEmbedding (column_group : ColumnGroup) (tags tags_to_filter : TagsArg).

(** ** [class TabularFeatures(TabularModule)] *)

Module TabularFeatures.
Section Composer.
Context `{Collaborators}.

Record t : Type := mk {
  categorical_module : option InputModule;
  continuous_module : option InputModule;
  text_embedding_module : option InputModule;
  to_apply : pylist InputModule;
  aggregation : option Aggregation
}.

(** [if module: to_apply.append(module)] *)
Definition append_if (l : pylist InputModule) (m : option InputModule)
  : pylist InputModule :=
  match m with
  | None => l
  | Some x => if truth x then append l x else l
  end.

(** Modelled from the spec: [TabularModule.set_aggregation] is not part of
    [tabular.py]; the aggregation strategy given at construction is the one
    the instance keeps. *)
Definition set_aggregation (aggregation : option Aggregation)
  : option Aggregation := aggregation.

(** The constructor.  [super().__init__()] leaves nothing the composer
    reads.  [to_apply] is bound to a new list, the supplied modules are
    appended in the order continuous, categorical, text, and the guard
    [assert (self.to_apply is not []), "Please provide at least one input
    layer"] evaluates a second list display and compares identities. *)
Definition __init__
    (continuous_module categorical_module text_embedding_module
       : option InputModule)
    (aggregation : option Aggregation)
  : Py Construction t :=
  (to_apply <- new_list ;;
   let to_apply := append_if to_apply continuous_module in
   let to_apply := append_if to_apply categorical_module in
   let to_apply := append_if to_apply text_embedding_module in
   literal <- new_list ;;
   (if py_is_not to_apply literal
    then py_ret tt
    else py_raise (AssertionError "Please provide at least one input layer")) ;;
   py_ret (mk categorical_module continuous_module text_embedding_module
             to_apply (set_aggregation aggregation)))%py.

(** [self.to_apply[0](inputs, merge_with=self.to_apply[1:] if
    len(self.to_apply) > 1 else None)]; the callee is evaluated before its
    arguments. *)
Definition forward (self : t) (inputs : Inputs) : Res Outputs :=
  let items := ob_items (to_apply self) in
  (first <- getitem items 0 ;;
   let merge_with :=
     if (1 <? List.length items)%nat then Some (skipn 1 items) else None in
   call first inputs merge_with)%res.

(** The loop of [forward_output_size]: one [update] per input layer. *)
Fixpoint collect_output_sizes (layers : list InputModule)
    (input_size : InputSize) (output_sizes : PyDict.t Size)
  : Res (PyDict.t Size) :=
  match layers with
  | [] => Ok output_sizes
  | in_layer :: rest =>
      (sizes <- module_forward_output_size in_layer input_size ;;
       collect_output_sizes rest input_size
         (PyDict.update output_sizes sizes))%res
  end.

Definition forward_output_size (self : t) (input_size : InputSize)
  : Res OutputSize :=
  (output_sizes <- collect_output_sizes (ob_items (to_apply self))
                     input_size PyDict.empty ;;
   super_forward_output_size (aggregation self) output_sizes)%res.

(** The class method.  [text_tags], [text_tags_to_filter],
    [max_text_length] and the extra keyword arguments are accepted and not
    used: the text branch is commented out in the source. *)
Definition from_column_group
    (column_group : ColumnGroup)
    (continuous_tags continuous_tags_to_filter : TagsArg)
    (categorical_tags categorical_tags_to_filter : TagsArg)
    (text_model : option InputModule)
    (text_tags text_tags_to_filter : TagsArg)
    (max_text_length : option Z)
    (aggregation : option Aggregation)
  : Py Construction t :=
  (maybe_continuous_module <-
     (if tags_truth continuous_tags
      then py_extern
             (BuildContinuous column_group continuous_tags
                continuous_tags_to_filter)
             (ContinuousFeatures_from_column_group column_group
                continuous_tags continuous_tags_to_filter)
      else py_ret None) ;;
   maybe_categorical_module <-
     (if tags_truth categorical_tags
      then py_extern
             (BuildEmbedding column_group categorical_tags
                categorical_tags_to_filter)
             (EmbeddingFeatures_from_column_group column_group
                categorical_tags categorical_tags_to_filter)
      else py_ret None) ;;
   __init__ maybe_continuous_module maybe_categorical_module text_model
     aggregation)%py.

End Composer.
End TabularFeatures.

(** ** The embedding layer

    [features/embedding.py] is imported by the package but is not among the
    files at hand; its tests are.  The definitions of this part follow the
    specification. *)

(** Modelled from the spec: a tensor, which [embedding.py] (missing) takes
    from the tensor engine; the contracts speak of shapes only, so a tensor
    is described by its shape. *)
Record Tensor : Type := mkTensor { shape : list Z }.

(** Modelled from the spec: an initializer of [embedding.py] (missing), "a
    callable that fills a tensor in place"; what is kept of it is the fill
    policy. *)
Inductive Fill : Type :=
| HostDefault
| Normal (mean std : Q)
| Uniform (low high : Q).

(** Modelled from the spec: equality of fill policies, needed for the
    object equality of the table configurations of [embedding.py]
    (missing). *)
Definition Fill_eq_dec (a b : Fill) : {a = b} + {a <> b}.
Proof.
  decide equality; decide equality;
    solve [apply Pos.eq_dec | apply Z.eq_dec].
Defined.

(** Modelled from the spec: a value passed where [embedding.py] (missing)
    expects an optional callable. *)
Inductive PyValue : Type :=
| PyNone
| PyStr (s : string)
| PyInt (z : Z)
| PyCallable (f : Fill).

(** Modelled from the spec: [callable(v)] as [embedding.py] (missing) asks
    it of an initializer. *)
Definition callable (v : PyValue) : bool :=
  match v with
  | PyCallable _ => true
  | _ => false
  end.

Module TableConfig.

(** Modelled from the spec: [TableConfig] of [embedding.py] (missing):
    capacity, dimension, initializer, combiner and optional name. *)
Record t : Type := mk {
  vocabulary_size : Z;
  dim : Z;
  initializer : Fill;
  combiner : option string;
  name : option string
}.

(** Modelled from the spec: the constructor of [TableConfig]
    ([embedding.py], missing).  An initializer that is supplied must be
    callable; without one the default fill is used. *)
Definition __init__ (vocabulary_size dim : Z) (initializer : PyValue)
    (combiner : option string) (name : option string) : Res t :=
  match initializer with
  | PyNone => Ok (mk vocabulary_size dim HostDefault combiner name)
  | PyCallable f => Ok (mk vocabulary_size dim f combiner name)
  | _ => Raise (ValueError "initializer must be callable if specified")
  end.

(** Modelled from the spec: object equality of the table configurations of
    [embedding.py] (missing), taken as equality of all their fields. *)
Definition eq_dec (a b : t) : {a = b} + {a <> b}.
Proof.
  decide equality;
    solve [apply Z.eq_dec | apply Fill_eq_dec
          | decide equality; apply string_dec].
Defined.

End TableConfig.

Module FeatureConfig.

(** Modelled from the spec: [FeatureConfig] of [embedding.py] (missing),
    a table and an optional maximal sequence length. *)
Record t : Type := mk {
  table : TableConfig.t;
  max_sequence_length : option Z
}.

End FeatureConfig.

Module TabularLayerNorm.

(** Modelled from the spec: [TabularLayerNorm] (missing), one
    normalization per feature name, each over its own dimension. *)
Record t : Type := mk { features_dim : PyDict.t Z }.

(** Modelled from the spec: [TabularLayerNorm.from_feature_config]
    (missing) derives the dimensions from the feature configuration. *)
Definition from_feature_config (feature_config : PyDict.t FeatureConfig.t)
  : t :=
  mk (map (fun kv => (fst kv, TableConfig.dim (FeatureConfig.table (snd kv))))
        feature_config).

(** Modelled from the spec: the forward pass of [TabularLayerNorm]
    (missing) keeps the keys and normalizes each value along its trailing
    dimension; shapes are unchanged. *)
Definition forward (self : t) (inputs : PyDict.t Tensor) : PyDict.t Tensor :=
  inputs.

End TabularLayerNorm.

Module EmbeddingFeatures.

(** Modelled from the spec: an allocated embedding table of
    [embedding.py] (missing): a weight matrix of shape (capacity,
    dimension) filled by the table's initializer. *)
Record EmbeddingTable : Type := mkTable {
  num_embeddings : Z;
  embedding_dim : Z;
  fill : Fill
}.

(** Modelled from the spec: the shape of a table's weight matrix
    ([embedding.py], missing): (capacity, dimension). *)
Definition weight_shape (tbl : EmbeddingTable) : list Z :=
  [num_embeddings tbl; embedding_dim tbl].

(** Modelled from the spec: the allocation of a table from its
    configuration ([embedding.py], missing). *)
Definition allocate (cfg : TableConfig.t) : EmbeddingTable :=
  mkTable (TableConfig.vocabulary_size cfg) (TableConfig.dim cfg)
    (TableConfig.initializer cfg).

(** Modelled from the spec: the identity of a table in [embedding.py]
    (missing), "by name or object equality": two named configurations are
    the same table when they carry the same name; a configuration without
    a name is the same table as itself only. *)
Definition same_table (a b : TableConfig.t) : bool :=
  match TableConfig.name a, TableConfig.name b with
  | Some x, Some y => String.eqb x y
  | None, None => if TableConfig.eq_dec a b then true else false
  | _, _ => false
  end.

(** Modelled from the spec: the table registry of [EmbeddingFeatures]
    (missing): the allocated tables, each with the configuration it was
    allocated from. *)
Definition Tables : Type := list (TableConfig.t * EmbeddingTable).

(** Modelled from the spec: the table a configuration refers to, in the
    registry of [embedding.py] (missing). *)
Fixpoint table_of (tables : Tables) (cfg : TableConfig.t)
  : option EmbeddingTable :=
  match tables with
  | [] => None
  | (owner, tbl) :: rest =>
      if same_table cfg owner then Some tbl else table_of rest cfg
  end.

(** Modelled from the spec: equality of table names in [embedding.py]
    (missing); only names that are given can be equal. *)
Definition name_eqb (a b : option string) : bool :=
  match a, b with
  | Some x, Some y => String.eqb x y
  | _, _ => false
  end.

(** Modelled from the spec: reading the table registry of
    [embedding.py] (missing) by table name, [embedding_tables[name]]. *)
Fixpoint lookup (tables : Tables) (name : option string)
  : option EmbeddingTable :=
  match tables with
  | [] => None
  | (owner, tbl) :: rest =>
      if name_eqb name (TableConfig.name owner) then Some tbl
      else lookup rest name
  end.

(** Modelled from the spec: registration in [embedding.py] (missing).
    One table per distinct table: the first configuration met for a table
    allocates it, later references to the same table reuse it. *)
Definition register (tables : Tables) (cfg : TableConfig.t) : Tables :=
  match table_of tables cfg with
  | Some _ => tables
  | None => tables ++ [(cfg, allocate cfg)]
  end.

(** Modelled from the spec: the state of an [EmbeddingFeatures] module
    ([embedding.py], missing). *)
Record t : Type := mk {
  feature_config : PyDict.t FeatureConfig.t;
  embedding_tables : Tables;
  item_id : option string;
  post : option TabularLayerNorm.t
}.

(** Modelled from the spec: the constructor of [EmbeddingFeatures]
    ([embedding.py], missing): one table per distinct table referenced by
    [feature_config]; a feature without a table is a configuration error
    raised here. *)
Definition __init__ (feature_config : PyDict.t FeatureConfig.t)
    (item_id : option string) (post : option TabularLayerNorm.t) : Res t :=
  let tables :=
    fold_left (fun acc kv => register acc (FeatureConfig.table (snd kv)))
      feature_config [] in
  if forallb (fun kv =>
                match table_of tables (FeatureConfig.table (snd kv)) with
                | Some _ => true
                | None => false
                end) feature_config
  then Ok (mk feature_config tables item_id post)
  else Raise (ValueError "feature references an undefined table").

(** Modelled from the spec: an embedding lookup; the output has the shape
    of the index tensor plus a trailing dimension, the table's. *)
Definition embedding_lookup (tbl : EmbeddingTable) (indices : Tensor)
  : Tensor :=
  mkTensor (shape indices ++ [embedding_dim tbl]).

(** Modelled from the spec: the forward pass of [EmbeddingFeatures]
    (missing): "for each feature present in [feature_config], perform an
    embedding lookup against its table", in the order of the
    configuration; a configured feature the input does not carry is
    passed over. *)
Fixpoint lookup_features (features : PyDict.t FeatureConfig.t)
    (tables : Tables) (inputs : PyDict.t Tensor) : Res (PyDict.t Tensor) :=
  match features with
  | [] => Ok []
  | (feature, cfg) :: rest =>
      match PyDict.get inputs feature with
      | None => lookup_features rest tables inputs
      | Some indices =>
          match table_of tables (FeatureConfig.table cfg) with
          | None => Raise (OtherException "KeyError" feature)
          | Some tbl =>
              (embedded <- lookup_features rest tables inputs ;;
               Ok ((feature, embedding_lookup tbl indices) :: embedded))%res
          end
      end
  end.

(** Modelled from the spec: [EmbeddingFeatures.forward] ([embedding.py],
    missing), the lookups over the module's own configuration and tables. *)
Definition forward (self : t) (inputs : PyDict.t Tensor)
  : Res (PyDict.t Tensor) :=
  lookup_features (feature_config self) (embedding_tables self) inputs.

(** Modelled from the spec: calling the module runs [forward] and, when
    [post] is configured, applies it to the whole output mapping. *)
Definition __call__ (self : t) (inputs : PyDict.t Tensor)
  : Res (PyDict.t Tensor) :=
  (outputs <- forward self inputs ;;
   match post self with
   | Some layer_norm => Ok (TabularLayerNorm.forward layer_norm outputs)
   | None => Ok outputs
   end)%res.

End EmbeddingFeatures.

(** Modelled from the spec: a column descriptor of the schema (owned by the
    schema service, missing): a name, an integer domain and tags. *)
Record IntDomain : Type := mkIntDomain { min : Z; max : Z }.

(** Modelled from the spec: a column of the schema (schema service,
    missing). *)
Record ColumnSchema : Type := mkColumn {
  column_name : string;
  int_domain : IntDomain;
  tags : list Tag
}.

(** Modelled from the spec: the test for the primary item identifier tag
    (schema service, missing). *)
Definition is_item_id (t : Tag) : bool :=
  match t with
  | ITEM_ID => true
  | _ => false
  end.

(** Modelled from the spec: the inference rule of [embedding.py] (missing),
    [ceil(multiplier * capacity ** 0.25)].  The host evaluates it in
    double precision, whose rounding is not modelled: the value it returns
    for a multiplier and a capacity is a parameter. *)
Class FloatArithmetic : Type := {
  inferred_embedding_size : Q -> Z -> Z
}.

Module FromSchema.

(** Modelled from the spec: the options of [EmbeddingFeatures.from_schema]
    ([embedding.py], missing), the configuration surface of the
    specification. *)
Record options : Type := mkOptions {
  embedding_dims : PyDict.t Z;
  embedding_dim_default : Z;
  infer_embedding_sizes : bool;
  infer_embedding_sizes_multiplier : Q;
  embeddings_initializers : PyDict.t PyValue;
  combiner : option string;
  layer_norm : bool
}.

(** Modelled from the spec: the capacity of a column's table in
    [from_schema] (missing), [domain.max + 1]. *)
Definition capacity (col : ColumnSchema) : Z := max (int_domain col) + 1.

(** Modelled from the spec: the initializer of a column's table in
    [from_schema] (missing): the per-feature one when given. *)
Definition initializer (opts : options) (col : ColumnSchema) : PyValue :=
  match PyDict.get (embeddings_initializers opts) (column_name col) with
  | Some v => v
  | None => PyNone
  end.

(** Modelled from the spec: the column recorded as [item_id] by
    [from_schema] (missing), the one tagged as the item identifier. *)
Definition find_item_id (schema : list ColumnSchema) : option string :=
  option_map column_name
    (find (fun col => existsb is_item_id (tags col)) schema).

Section Factory.
Context `{FloatArithmetic}.

(** Modelled from the spec: the dimension of a column's table in
    [from_schema] (missing), in priority order: the per-feature override,
    the inferred size when inference is enabled, the default. *)
Definition dimension (opts : options) (col : ColumnSchema) : Z :=
  match PyDict.get (embedding_dims opts) (column_name col) with
  | Some d => d
  | None =>
      if infer_embedding_sizes opts
      then inferred_embedding_size (infer_embedding_sizes_multiplier opts)
             (capacity col)
      else embedding_dim_default opts
  end.

(** Modelled from the spec: the loop of [from_schema] (missing) over the
    columns, one table configuration per column, named after it. *)
Fixpoint feature_configs (opts : options) (schema : list ColumnSchema)
    (acc : PyDict.t FeatureConfig.t) : Res (PyDict.t FeatureConfig.t) :=
  match schema with
  | [] => Ok acc
  | col :: rest =>
      (table <- TableConfig.__init__ (capacity col) (dimension opts col)
                  (initializer opts col) (combiner opts)
                  (Some (column_name col)) ;;
       feature_configs opts rest
         (PyDict.setitem acc (column_name col)
            (FeatureConfig.mk table None)))%res
  end.

(** Modelled from the spec: [EmbeddingFeatures.from_schema]
    ([embedding.py], missing), on a schema already filtered to the
    categorical columns. *)
Definition from_schema (schema : list ColumnSchema) (opts : options)
  : Res EmbeddingFeatures.t :=
  (feature_config <- feature_configs opts schema PyDict.empty ;;
   let post :=
     if layer_norm opts
     then Some (TabularLayerNorm.from_feature_config feature_config)
     else None in
   EmbeddingFeatures.__init__ feature_config (find_item_id schema) post)%res.

End Factory.
End FromSchema.

Module SoftEmbedding.

(** Modelled from the spec: the state of [SoftEmbedding] ([embedding.py],
    missing): a table of [num_embeddings] rows of [embeddings_dim]
    entries, and the projection of a scalar onto [num_embeddings]
    weights. *)
Record t : Type := mk {
  embedding_table : EmbeddingFeatures.EmbeddingTable;
  projection_out_features : Z
}.

(** Modelled from the spec: the constructor of [SoftEmbedding]
    ([embedding.py], missing); both sizes must be greater than zero, and
    each assertion names its constraint. *)
Definition __init__ (num_embeddings embeddings_dim : Z)
    (emb_initializer : option Fill) : Res t :=
  if negb (0 <? num_embeddings)
  then Raise (AssertionError
         "number of embeddings for soft embeddings needs to be greater than 0")
  else if negb (0 <? embeddings_dim)
  then Raise (AssertionError
         "embeddings dim for soft embeddings needs to be greater than 0")
  else Ok (mk (EmbeddingFeatures.mkTable num_embeddings embeddings_dim
                 (match emb_initializer with
                  | Some f => f
                  | None => HostDefault
                  end))
             num_embeddings).

(** Modelled from the spec: the forward pass of [SoftEmbedding]
    (missing): one trailing embedding dimension is appended to the input
    shape. *)
Definition forward (self : t) (input : Tensor) : Tensor :=
  mkTensor (shape input
            ++ [EmbeddingFeatures.embedding_dim (embedding_table self)]).

End SoftEmbedding.

(** ** Reference descriptions of the composer, in the words of the specification *)

Section ComposerReference.
Context `{Collaborators}.

(** A sub-module is configured when it was supplied and passes the [if]
    test of the constructor. *)
Definition present (m : option InputModule) : list InputModule :=
  match m with
  | Some x => if truth x then [x] else []
  | None => []
  end.

(** The configured sub-modules: continuous, then categorical, then text. *)
Definition configured (continuous categorical text : option InputModule)
  : list InputModule :=
  present continuous ++ present categorical ++ present text.

(** The collection to merge with: absent when nothing remains. *)
Definition merge_collection (remaining : list InputModule)
  : option (list InputModule) :=
  match remaining with
  | [] => None
  | _ :: _ => Some remaining
  end.

(** Union of two named-size mappings; on a shared name the right one
    wins, and a name keeps the place of its first appearance. *)
Definition union {V} (d1 d2 : PyDict.t V) : PyDict.t V :=
  map (fun kv => (fst kv, match PyDict.get d2 (fst kv) with
                          | Some v => v
                          | None => snd kv
                          end)) d1
  ++ filter (fun kv => negb (PyDict.mem d1 (fst kv))) d2.

Definition union_all {V} (ds : list (PyDict.t V)) : PyDict.t V :=
  fold_left union ds PyDict.empty.

(** The size the last of [ds] to mention [name] gives it. *)
Fixpoint last_reported {V} (ds : list (PyDict.t V)) (name : string)
  : option V :=
  match ds with
  | [] => None
  | d :: rest =>
      match last_reported rest name with
      | Some v => Some v
      | None => PyDict.get d name
      end
  end.

(** What the sub-factories are expected to be asked. *)
Definition expected_constructions (column_group : ColumnGroup)
    (continuous_tags continuous_tags_to_filter : TagsArg)
    (categorical_tags categorical_tags_to_filter : TagsArg)
  : list Construction :=
  (if tags_truth continuous_tags
   then [BuildContinuous column_group continuous_tags
           continuous_tags_to_filter]
   else [])
  ++ (if tags_truth categorical_tags
      then [BuildEmbedding column_group categorical_tags
              categorical_tags_to_filter]
      else []).

Definition is_text_construction (c : Construction) : bool :=
  match c with
  | BuildTextEmbedding _ _ _ => true
  | _ => false
  end.

End ComposerReference.

(** ** A small concrete world, for running the definitions *)

Module Demo.

Record module : Type := mkModule {
  name : string;
  truthy : bool;
  sizes : PyDict.t (list Z)
}.

(** What a demo module answers when called: its own name, the input it
    saw, and the names of the modules it was asked to merge with. *)
Record answer : Type := mkAnswer {
  callee : string;
  seen : list string;
  merged : option (list string)
}.

#[export] Instance world : Collaborators := {|
  Inputs := list string;
  Outputs := answer;
  InputSize := PyDict.t (list Z);
  Size := list Z;
  OutputSize := PyDict.t (list Z);
  Aggregation := string;
  ColumnGroup := list string;
  InputModule := module;
  truth := truthy;
  call := fun m inputs merge_with =>
    Ok (mkAnswer (name m) inputs (option_map (map name) merge_with));
  module_forward_output_size := fun m _ => Ok (sizes m);
  super_forward_output_size := fun _ d => Ok d;
  ContinuousFeatures_from_column_group := fun cg _ _ =>
    Ok (Some (mkModule "continuous" true (map (fun c => (c, [-1; 1])) cg)));
  EmbeddingFeatures_from_column_group := fun cg _ _ =>
    Ok (Some (mkModule "categorical" true (map (fun c => (c, [-1; 64])) cg)))
|}.

Definition continuous : module :=
  mkModule "continuous" true [("price", [-1; 1]); ("item_id", [-1; 1])].
Definition categorical : module :=
  mkModule "categorical" true [("item_id", [-1; 64]); ("category", [-1; 64])].
Definition text : module :=
  mkModule "text" true [("title", [-1; 768])].

Definition start : World Construction := mkWorld 0%nat [].

End Demo.

(** ** Reference descriptions of the embedding layer *)

(** The configuration of the tables referenced by a feature configuration,
    in the order of the features. *)
Definition referenced_tables (feature_config : PyDict.t FeatureConfig.t)
  : list TableConfig.t :=
  map (fun kv => FeatureConfig.table (snd kv)) feature_config.

(** The configuration that owns the table of [cfg]: the first one
    referenced for that table. *)
Definition first_same (feature_config : PyDict.t FeatureConfig.t)
    (cfg : TableConfig.t) : option TableConfig.t :=
  find (EmbeddingFeatures.same_table cfg) (referenced_tables feature_config).

(** Features that share a table by name are configured with the same
    dimension. *)
Definition shared_tables_agree (feature_config : PyDict.t FeatureConfig.t)
  : Prop :=
  forall c1 c2 name,
    In c1 (referenced_tables feature_config) ->
    In c2 (referenced_tables feature_config) ->
    TableConfig.name c1 = Some name ->
    TableConfig.name c2 = Some name ->
    TableConfig.dim c1 = TableConfig.dim c2.

(** Every initializer given to the factory is callable. *)
Definition initializers_callable (inits : PyDict.t PyValue) : Prop :=
  forall k v, PyDict.get inits k = Some v -> v = PyNone \/ callable v = true.

(** The fill policy kept from the value given as initializer. *)
Definition fill_of (v : PyValue) : Fill :=
  match v with
  | PyCallable f => f
  | _ => HostDefault
  end.

Section FactoryReference.
Context `{FloatArithmetic}.

(** The table a column is expected to get from the factory. *)
Definition column_table (opts : FromSchema.options) (col : ColumnSchema)
  : TableConfig.t :=
  TableConfig.mk (FromSchema.capacity col) (FromSchema.dimension opts col)
    (fill_of (FromSchema.initializer opts col)) (FromSchema.combiner opts)
    (Some (column_name col)).

Definition column_feature (opts : FromSchema.options) (col : ColumnSchema)
  : string * FeatureConfig.t :=
  (column_name col, FeatureConfig.mk (column_table opts col) None).

End FactoryReference.

(** [weight.shape[1]] of an embedding table. *)
Definition second_axis (tbl : EmbeddingFeatures.EmbeddingTable) : Z :=
  nth 1%nat (EmbeddingFeatures.weight_shape tbl) 0.

Module DemoEmbedding.

Definition table (name : string) (dim : Z) : FeatureConfig.t :=
  FeatureConfig.mk (TableConfig.mk 100 dim HostDefault None (Some name)) None.

Definition feature_config : PyDict.t FeatureConfig.t :=
  [("item_id", table "item_id" 15); ("category", table "category" 15)].

Definition batch : PyDict.t Tensor :=
  [("item_id", mkTensor [32; 20]); ("category", mkTensor [32; 20])].

(** The batch a composer passes on: it also carries a continuous column. *)
Definition full_batch : PyDict.t Tensor :=
  [("item_id", mkTensor [32; 20]); ("price", mkTensor [32; 20]);
   ("category", mkTensor [32; 20])].

(** Two features that name the same table and disagree on its dimension,
    and a batch that carries them beside a continuous column. *)
Definition conflicting_config : PyDict.t FeatureConfig.t :=
  [("item_id", table "item" 8); ("last_item_id", table "item" 16)].

Definition conflicting_batch : PyDict.t Tensor :=
  [("item_id", mkTensor [32; 20]); ("price", mkTensor [32; 20]);
   ("last_item_id", mkTensor [32; 20])].

Definition schema : list ColumnSchema :=
  [mkColumn "item_id" (mkIntDomain 0 51996) [CATEGORICAL; ITEM_ID];
   mkColumn "category" (mkIntDomain 0 331) [CATEGORICAL]].

(** A host that answers with the sizes the tests report for the two
    columns of [schema]. *)
#[export] Instance host : FloatArithmetic := {|
  inferred_embedding_size := fun _ capacity =>
    if capacity =? 51997 then 46 else if capacity =? 332 then 13 else 64
|}.

Definition infer_sizes : FromSchema.options :=
  FromSchema.mkOptions [] 64 true (3 # 1) [] (Some "mean") true.

End DemoEmbedding.

(** ** Further reference descriptions *)

Section ComposerReferenceMore.
Context `{Collaborators}.

(** What the constructor makes of an argument: a module whose truth value
    is false counts like an absent one. *)
Definition effective (m : option InputModule) : option InputModule :=
  match m with
  | Some x => if truth x then Some x else None
  | None => None
  end.

(** A module that was handed to the constructor, in any of the three
    places. *)
Definition supplied (continuous categorical text : option InputModule)
    (m : InputModule) : Prop :=
  continuous = Some m \/ categorical = Some m \/ text = Some m.

End ComposerReferenceMore.

(** The names of a list, each at the place of its first occurrence. *)
Fixpoint first_occurrences (names : list string) : list string :=
  match names with
  | [] => []
  | k :: rest =>
      k :: filter (fun k' => negb (String.eqb k' k)) (first_occurrences rest)
  end.

(** All names reported by a list of mappings, report after report. *)
Definition reported_names {V} (ds : list (PyDict.t V)) : list string :=
  flat_map PyDict.keys ds.

(** A second concrete world, in which collaborators fail: a module named
    "broken" raises when called or asked for its sizes, the continuous
    factory refuses an empty column group, and the embedding factory
    always raises. *)
Module DemoFailing.

Definition broken : Demo.module := Demo.mkModule "broken" true [].


Definition is_broken (m : Demo.module) : bool :=
  String.eqb (Demo.name m) "broken".

#[export] Instance world : Collaborators := {|
  Inputs := list string;
  Outputs := Demo.answer;
  InputSize := PyDict.t (list Z);
  Size := list Z;
  OutputSize := PyDict.t (list Z);
  Aggregation := string;
  ColumnGroup := list string;
  InputModule := Demo.module;
  truth := Demo.truthy;
  call := fun m inputs merge_with =>
    if is_broken m
    then Raise (OtherException "RuntimeError" "broken module")
    else Ok (Demo.mkAnswer (Demo.name m) inputs
               (option_map (map Demo.name) merge_with));
  module_forward_output_size := fun m _ =>
    if is_broken m
    then Raise (OtherException "RuntimeError" "broken module")
    else Ok (Demo.sizes m);
  super_forward_output_size := fun _ d => Ok d;
  ContinuousFeatures_from_column_group := fun cg _ _ =>
    match cg with
    | [] => Raise (ValueError "no continuous column")
    | _ :: _ =>
        Ok (Some (Demo.mkModule "continuous" true
                    (map (fun c => (c, [-1; 1])) cg)))
    end;
  EmbeddingFeatures_from_column_group := fun _ _ _ =>
    Raise (OtherException "KeyError" "int_domain")
|}.

Definition start : World Construction := mkWorld 0%nat [].

End DemoFailing.

(** * Properties of the composer *)

Section PythonFacts.

Lemma fresh_list_is_distinct {A} (n : nat) (xs ys : list A) :
  py_is_not (mkPyList n xs) (mkPyList (S n) ys) = true.
Proof.
  unfold py_is_not; simpl.
  apply negb_true_iff, Nat.eqb_neq. lia.
Qed.

End PythonFacts.

Section ComposerFacts.
Context `{Collaborators}.

Lemma append_if_items (l : pylist InputModule) (m : option InputModule) :
  ob_items (TabularFeatures.append_if l m) = ob_items l ++ present m
  /\ ob_id (TabularFeatures.append_if l m) = ob_id l.
Proof.
  destruct m as [x|]; simpl.
  - destruct (truth x); simpl; auto using app_nil_r.
  - auto using app_nil_r.
Qed.

(** The constructor returns for every argument: the guard compares the
    identity of [to_apply] with that of a list allocated after it. *)
Lemma init_returns (c k t : option InputModule)
    (agg : option Aggregation) (w : World Construction) :
  TabularFeatures.__init__ c k t agg w =
    (Ok (TabularFeatures.mk k c t
           (mkPyList (next_id w) (configured c k t)) agg),
     mkWorld (S (S (next_id w))) (trace w)).
Proof.
  unfold TabularFeatures.__init__, py_bind, new_list, py_ret. simpl.
  set (l0 := mkPyList (next_id w) (@nil InputModule)).
  set (l3 := TabularFeatures.append_if _ t).
  assert (Hl3 : l3 = mkPyList (next_id w) (configured c k t)).
  { subst l3.
    destruct (append_if_items
                (TabularFeatures.append_if
                   (TabularFeatures.append_if l0 c) k) t) as [Hi Hid].
    destruct (append_if_items (TabularFeatures.append_if l0 c) k)
      as [Hi2 Hid2].
    destruct (append_if_items l0 c) as [Hi1 Hid1].
    rewrite Hi2, Hi1 in Hi. rewrite Hid2, Hid1 in Hid. simpl in Hi, Hid.
    destruct (TabularFeatures.append_if _ t) as [i xs]; simpl in *.
    subst. unfold configured. now rewrite app_assoc. }
  rewrite Hl3, fresh_list_is_distinct. reflexivity.
Qed.

End ComposerFacts.

(** ** Construction and forward *)

(** C1, evaluated on the code: with the three sub-modules absent the
    constructor does not raise the assertion error the claim requires
    ("Please provide at least one input layer"); it returns an instance
    whose [to_apply] is empty. *)
Theorem init_without_modules_returns_instance :
  fst (TabularFeatures.__init__ (H := Demo.world) None None None None
         Demo.start)
  = Ok (TabularFeatures.mk None None None (mkPyList 0%nat []) None).
Proof. reflexivity. Qed.

Section Forward.
Context `{Collaborators}.

(** C2: the constructor returns an instance whatever sub-modules it is
    given, since its guard compares [to_apply] by identity with a freshly
    allocated list; with all three sub-modules [None] the instance has
    nothing to apply, and every [forward] on it raises [IndexError]. *)
Theorem init_without_modules_fails_at_forward
    (agg : option Aggregation) (w : World Construction) :
  (forall c k t, exists self w',
      TabularFeatures.__init__ c k t agg w = (Ok self, w'))
  /\ exists self w',
      TabularFeatures.__init__ None None None agg w = (Ok self, w')
      /\ ob_items (TabularFeatures.to_apply self) = []
      /\ forall inputs,
          TabularFeatures.forward self inputs
          = Raise (IndexError "list index out of range").
Proof.
  split.
  - intros c k t. rewrite init_returns. eauto.
  - rewrite init_returns. do 2 eexists. split; [reflexivity|].
    split; [reflexivity|]. intros inputs. reflexivity.
Qed.


End Forward.


(** ** The factory *)

Section Factory.
Context `{Collaborators}.

Lemma extern_if_trace {A} (b : bool) (ev : Construction) (r : Res A)
    (dflt : A) (w : World Construction) :
  (if b then py_extern ev r else py_ret dflt) w
  = ((if b then r else Ok dflt),
     mkWorld (next_id w) (trace w ++ (if b then [ev] else []))).
Proof.
  destruct b; unfold py_extern, py_ret; simpl.
  - reflexivity.
  - rewrite app_nil_r. now destruct w.
Qed.

(** X6: when the continuous factory raises, its exception leaves
    [from_column_group]; the embedding factory is not asked and no
    instance is built. *)
Lemma from_column_group_continuous_raises
    (column_group : ColumnGroup)
    (continuous_tags continuous_tags_to_filter : TagsArg)
    (categorical_tags categorical_tags_to_filter : TagsArg)
    (text_model : option InputModule)
    (text_tags text_tags_to_filter : TagsArg)
    (max_text_length : option Z)
    (agg : option Aggregation) (w : World Construction) (e : PyExc) :
  tags_truth continuous_tags = true ->
  ContinuousFeatures_from_column_group column_group continuous_tags
    continuous_tags_to_filter = Raise e ->
  TabularFeatures.from_column_group column_group
    continuous_tags continuous_tags_to_filter
    categorical_tags categorical_tags_to_filter
    text_model text_tags text_tags_to_filter max_text_length agg w
  = (Raise e,
     mkWorld (next_id w)
       (trace w ++ [BuildContinuous column_group continuous_tags
                      continuous_tags_to_filter])).
Proof.
  intros Htags Hraise.
  unfold TabularFeatures.from_column_group, py_bind.
  now rewrite Htags, (extern_if_trace true), Hraise.
Qed.

(** C4: [from_column_group] asks [ContinuousFeatures.from_column_group]
    for the continuous sub-module, with the given tags and exclusion
    filter, exactly when [continuous_tags] is non-empty, asks
    [EmbeddingFeatures.from_column_group] for the categorical one exactly
    when [categorical_tags] is non-empty, constructs no text-embedding
    module, and returns what the constructor builds from these two
    results, the unchanged [text_model] and the given aggregation. *)
Theorem from_column_group_builds_selected_modules
    (column_group : ColumnGroup)
    (continuous_tags continuous_tags_to_filter : TagsArg)
    (categorical_tags categorical_tags_to_filter : TagsArg)
    (text_model : option InputModule)
    (text_tags text_tags_to_filter : TagsArg)
    (max_text_length : option Z)
    (agg : option Aggregation) (w : World Construction)
    (mc mk : option InputModule) :
  (if tags_truth continuous_tags
   then ContinuousFeatures_from_column_group column_group continuous_tags
          continuous_tags_to_filter
   else Ok None) = Ok mc ->
  (if tags_truth categorical_tags
   then EmbeddingFeatures_from_column_group column_group categorical_tags
          categorical_tags_to_filter
   else Ok None) = Ok mk ->
  exists self w',
    TabularFeatures.from_column_group column_group
      continuous_tags continuous_tags_to_filter
      categorical_tags categorical_tags_to_filter
      text_model text_tags text_tags_to_filter max_text_length agg w
    = (Ok self, w')
    /\ trace w' = trace w ++ expected_constructions column_group
                               continuous_tags continuous_tags_to_filter
                               categorical_tags categorical_tags_to_filter
    /\ existsb is_text_construction (trace w') =
         existsb is_text_construction (trace w)
    /\ TabularFeatures.__init__ mc mk text_model agg
         (mkWorld (next_id w) (trace w')) = (Ok self, w')
    /\ TabularFeatures.continuous_module self = mc
    /\ TabularFeatures.categorical_module self = mk
    /\ TabularFeatures.text_embedding_module self = text_model
    /\ TabularFeatures.aggregation self = agg
    /\ ob_items (TabularFeatures.to_apply self) = configured mc mk text_model.
Proof.
  intros Hc Hk.
  unfold TabularFeatures.from_column_group, py_bind.
  rewrite extern_if_trace, Hc. cbv beta iota.
  rewrite extern_if_trace, Hk. cbv beta iota.
  simpl next_id. simpl trace.
  rewrite init_returns. simpl next_id; simpl trace.
  do 2 eexists. split; [reflexivity|]. simpl trace.
  split; [unfold expected_constructions; now rewrite app_assoc|].
  split.
  { rewrite <- app_assoc, !existsb_app.
    destruct (tags_truth continuous_tags), (tags_truth categorical_tags);
      simpl; now rewrite ?orb_false_r. }
  split; [now rewrite init_returns|].
  repeat (split; [reflexivity|]). reflexivity.
Qed.

End Factory.

Lemma from_column_group_builds_selected_modules_demo :
  exists (mc mk : option Demo.module),
    ContinuousFeatures_from_column_group (Collaborators := Demo.world)
      ["price"] (TagsOne CONTINUOUS) TagsNone = Ok mc
    /\ mk = None
    /\ exists (self : @TabularFeatures.t Demo.world) w',
      TabularFeatures.from_column_group (H := Demo.world) ["price"]
        (TagsOne CONTINUOUS) TagsNone (TagsList []) TagsNone
        (Some Demo.text) (TagsOne TEXT_TOKENIZED) TagsNone None
        (Some "concat") Demo.start
      = (Ok self, w')
      /\ trace w'
         = [@BuildContinuous Demo.world ["price"] (TagsOne CONTINUOUS)
              TagsNone]
      /\ TabularFeatures.continuous_module self = mc
      /\ TabularFeatures.categorical_module self = mk
      /\ TabularFeatures.text_embedding_module self = Some Demo.text.
Proof.
  do 2 eexists. split; [reflexivity|]. split; [reflexivity|].
  destruct (from_column_group_builds_selected_modules (H := Demo.world)
              ["price"] (TagsOne CONTINUOUS) TagsNone (TagsList []) TagsNone
              (Some Demo.text) (TagsOne TEXT_TOKENIZED) TagsNone None
              (Some "concat") Demo.start _ None eq_refl eq_refl)
    as (self & w' & Hrun & Htr & _ & _ & Hc & Hk & Ht & _).
  exists self, w'. auto.
Defined.

(** ** Dictionaries: assignment, update, union *)

Section DictFacts.
Context {V : Type}.
Implicit Types (d : PyDict.t V) (k : string) (v : V).

Lemma get_none_iff d k : PyDict.get d k = None <-> ~ In k (PyDict.keys d).
Proof.
  induction d as [|[k' v'] d IH]; simpl.
  - tauto.
  - destruct (String.eqb_spec k k') as [->|Hne].
    + split; [discriminate | intros Hn; exfalso; apply Hn; now left].
    + rewrite IH. split.
      * intros Hn [He|Hi]; [now apply Hne | now apply Hn].
      * intros Hn Hi. apply Hn. now right.
Qed.

Lemma mem_true_iff d k : PyDict.mem d k = true <-> In k (PyDict.keys d).
Proof.
  unfold PyDict.mem. destruct (PyDict.get d k) eqn:Hg.
  - split; [intros _ | reflexivity].
    destruct (in_dec string_dec k (PyDict.keys d)) as [Hi|Hn]; [exact Hi|].
    apply get_none_iff in Hn. congruence.
  - apply get_none_iff in Hg. split; [discriminate | tauto].
Qed.

Lemma get_in d k v : PyDict.get d k = Some v -> In (k, v) d.
Proof.
  induction d as [|[k' v'] d IH]; simpl; [discriminate|].
  destruct (String.eqb_spec k k') as [->|Hne].
  - intros [= ->]. now left.
  - intros Hg. right. now apply IH.
Qed.

Lemma in_get d k v : PyDict.wf d -> In (k, v) d -> PyDict.get d k = Some v.
Proof.
  unfold PyDict.wf.
  induction d as [|[k' v'] d IH]; simpl; [tauto|].
  intros Hwf [Heq|Hin].
  - injection Heq as -> ->. now rewrite String.eqb_refl.
  - inversion Hwf as [|? ? Hk' Hd]; subst.
    destruct (String.eqb_spec k k') as [->|Hne].
    + exfalso. apply Hk'. change k' with (fst (k', v)).
      now apply in_map.
    + now apply IH.
Qed.

Lemma get_setitem d k v k' :
  PyDict.get (PyDict.setitem d k v) k'
  = if String.eqb k' k then Some v else PyDict.get d k'.
Proof.
  induction d as [|[k1 v1] d IH]; simpl.
  - reflexivity.
  - destruct (String.eqb_spec k k1) as [->|Hne]; simpl.
    + destruct (String.eqb_spec k' k1); reflexivity.
    + destruct (String.eqb_spec k' k1) as [->|Hne'].
      * destruct (String.eqb_spec k1 k); [congruence | reflexivity].
      * apply IH.
Qed.

Lemma keys_setitem d k v :
  PyDict.keys (PyDict.setitem d k v)
  = if PyDict.mem d k then PyDict.keys d else PyDict.keys d ++ [k].
Proof.
  unfold PyDict.mem.
  induction d as [|[k1 v1] d IH]; simpl.
  - reflexivity.
  - destruct (String.eqb_spec k k1) as [->|Hne]; simpl.
    + reflexivity.
    + rewrite IH. now destruct (PyDict.get d k).
Qed.

Lemma wf_setitem d k v : PyDict.wf d -> PyDict.wf (PyDict.setitem d k v).
Proof.
  unfold PyDict.wf. intros Hwf. rewrite keys_setitem.
  destruct (PyDict.mem d k) eqn:Hm; [exact Hwf|].
  apply NoDup_app; [exact Hwf | repeat constructor; simpl; tauto |].
  intros x Hx [<-|[]].
  apply mem_true_iff in Hx. congruence.
Qed.

(** Assignment to a key already present rewrites that entry; assignment
    to a new key adds an entry at the end. *)
Lemma setitem_present d k v :
  PyDict.wf d -> PyDict.mem d k = true ->
  PyDict.setitem d k v
  = map (fun kv => if String.eqb (fst kv) k then (fst kv, v) else kv) d.
Proof.
  unfold PyDict.wf, PyDict.mem.
  induction d as [|[k1 v1] d IH]; simpl; [discriminate|].
  intros Hwf Hm. inversion Hwf as [|? ? Hk1 Hd]; subst.
  destruct (String.eqb_spec k k1) as [->|Hne].
  - rewrite String.eqb_refl. f_equal.
    rewrite <- (map_id d) at 1. apply map_ext_in.
    intros [k2 v2] Hin. simpl.
    destruct (String.eqb_spec k2 k1) as [->|]; [|reflexivity].
    exfalso. apply Hk1. change k1 with (fst (k1, v2)). now apply in_map.
  - destruct (String.eqb_spec k1 k); [congruence|].
    f_equal. now apply IH.
Qed.

Lemma setitem_absent d k v :
  PyDict.mem d k = false -> PyDict.setitem d k v = d ++ [(k, v)].
Proof.
  unfold PyDict.mem.
  induction d as [|[k1 v1] d IH]; simpl; [reflexivity|].
  destruct (String.eqb_spec k k1) as [->|Hne]; [discriminate|].
  intros Hm. f_equal. now apply IH.
Qed.

Lemma mem_setitem d k v k' :
  PyDict.mem (PyDict.setitem d k v) k' = String.eqb k' k || PyDict.mem d k'.
Proof.
  unfold PyDict.mem. rewrite get_setitem.
  now destruct (String.eqb k' k).
Qed.

Lemma get_app d1 d2 k :
  PyDict.get (d1 ++ d2) k
  = match PyDict.get d1 k with
    | Some v => Some v
    | None => PyDict.get d2 k
    end.
Proof.
  induction d1 as [|[k1 v1] d1 IH]; simpl; [reflexivity|].
  now destruct (String.eqb k k1).
Qed.

Lemma get_map_values (f : string -> V -> V) d k :
  PyDict.get (map (fun kv => (fst kv, f (fst kv) (snd kv))) d) k
  = option_map (f k) (PyDict.get d k).
Proof.
  induction d as [|[k1 v1] d IH]; simpl; [reflexivity|].
  destruct (String.eqb_spec k k1) as [->|]; [reflexivity | exact IH].
Qed.

Lemma get_filter_keys (p : string -> bool) d k :
  PyDict.get (filter (fun kv => p (fst kv)) d) k
  = if p k then PyDict.get d k else None.
Proof.
  induction d as [|[k1 v1] d IH]; simpl.
  - now destruct (p k).
  - destruct (p k1) eqn:Hp1; simpl.
    + destruct (String.eqb_spec k k1) as [->|]; [now rewrite Hp1 | exact IH].
    + destruct (String.eqb_spec k k1) as [->|]; [|exact IH].
      now rewrite IH, Hp1.
Qed.

(** Reading a union: the right mapping is asked first. *)
Lemma get_union d1 d2 k :
  PyDict.get (union d1 d2) k
  = match PyDict.get d2 k with
    | Some v => Some v
    | None => PyDict.get d1 k
    end.
Proof.
  unfold union. rewrite get_app.
  rewrite (get_map_values
             (fun k0 v0 => match PyDict.get d2 k0 with
                           | Some v => v
                           | None => v0
                           end)).
  rewrite (get_filter_keys (fun k0 => negb (PyDict.mem d1 k0))).
  unfold PyDict.mem.
  destruct (PyDict.get d1 k); simpl; now destruct (PyDict.get d2 k).
Qed.

Lemma keys_union d1 d2 :
  PyDict.keys (union d1 d2)
  = PyDict.keys d1
    ++ filter (fun k => negb (PyDict.mem d1 k)) (PyDict.keys d2).
Proof.
  unfold union, PyDict.keys. rewrite map_app, map_map. simpl.
  f_equal.
  induction d2 as [|[k2 v2] d2 IH]; simpl; [reflexivity|].
  destruct (PyDict.mem d1 k2); simpl; now rewrite IH.
Qed.

Lemma wf_union d1 d2 :
  PyDict.wf d1 -> PyDict.wf d2 -> PyDict.wf (union d1 d2).
Proof.
  unfold PyDict.wf. intros H1 H2. rewrite keys_union.
  apply NoDup_app; [exact H1 | now apply NoDup_filter |].
  intros x Hx Hf. apply filter_In in Hf as [_ Hm].
  apply mem_true_iff in Hx. rewrite Hx in Hm. discriminate.
Qed.

(** Storing one more item into the left mapping is the same as offering
    it first on the right. *)
Lemma union_setitem d1 d2 k v :
  PyDict.wf d1 -> PyDict.get d2 k = None ->
  union (PyDict.setitem d1 k v) d2 = union d1 ((k, v) :: d2).
Proof.
  intros Hwf Hk. unfold union.
  assert (Hfilter :
    filter (fun kv => negb (PyDict.mem (PyDict.setitem d1 k v) (fst kv))) d2
    = filter (fun kv => negb (PyDict.mem d1 (fst kv))) d2).
  { apply filter_ext_in. intros [k2 v2] Hin. simpl.
    rewrite mem_setitem.
    destruct (String.eqb_spec k2 k) as [->|]; [|reflexivity].
    exfalso. apply get_none_iff in Hk. apply Hk.
    change k with (fst (k, v2)). now apply in_map. }
  rewrite Hfilter. clear Hfilter.
  destruct (PyDict.mem d1 k) eqn:Hm.
  - rewrite (setitem_present d1 k v Hwf Hm). simpl. rewrite Hm. simpl.
    f_equal. rewrite map_map. apply map_ext. intros [k1 v1]. simpl.
    destruct (String.eqb_spec k1 k) as [->|]; simpl.
    + now rewrite Hk.
    + reflexivity.
  - rewrite (setitem_absent d1 k v Hm). simpl. rewrite Hm. simpl.
    rewrite map_app. simpl. rewrite Hk. rewrite <- app_assoc. simpl.
    f_equal. apply map_ext_in. intros [k1 v1] Hin. simpl.
    destruct (String.eqb_spec k1 k) as [->|]; [|reflexivity].
    exfalso. assert (Hi : In k (PyDict.keys d1)).
    { change k with (fst (k, v1)). now apply in_map. }
    apply mem_true_iff in Hi. congruence.
Qed.

(** [update] computes the union. *)
Lemma update_is_union d1 d2 :
  PyDict.wf d1 -> PyDict.wf d2 -> PyDict.update d1 d2 = union d1 d2.
Proof.
  unfold PyDict.update. revert d1.
  induction d2 as [|[k v] d2 IH]; intros d1 H1 H2; simpl.
  - unfold union. simpl. rewrite app_nil_r.
    rewrite <- (map_id d1) at 1. apply map_ext. now intros [k1 v1].
  - unfold PyDict.wf in H2. simpl in H2.
    inversion H2 as [|? ? Hk Hd2]; subst.
    rewrite IH; [|now apply wf_setitem | exact Hd2].
    apply union_setitem; [exact H1 | now apply get_none_iff].
Qed.

Lemma wf_union_all (ds : list (PyDict.t V)) (acc : PyDict.t V) :
  PyDict.wf acc -> Forall PyDict.wf ds -> PyDict.wf (fold_left union ds acc).
Proof.
  revert acc. induction ds as [|d ds IH]; intros acc Ha Hds; simpl.
  - exact Ha.
  - inversion Hds; subst. apply IH; [now apply wf_union | assumption].
Qed.

Lemma get_fold_union (ds : list (PyDict.t V)) (acc : PyDict.t V) k :
  PyDict.get (fold_left union ds acc) k
  = match last_reported ds k with
    | Some v => Some v
    | None => PyDict.get acc k
    end.
Proof.
  revert acc. induction ds as [|d ds IH]; intros acc; simpl.
  - reflexivity.
  - rewrite IH, get_union.
    now destruct (last_reported ds k).
Qed.

End DictFacts.

(** ** Output sizes *)

Section OutputSize.
Context `{Collaborators}.

Lemma last_reported_app {V} (ds1 ds2 : list (PyDict.t V)) (name : string) :
  last_reported (ds1 ++ ds2) name
  = match last_reported ds2 name with
    | Some v => Some v
    | None => last_reported ds1 name
    end.
Proof.
  induction ds1 as [|d ds1 IH]; simpl.
  - now destruct (last_reported ds2 name).
  - rewrite IH. now destruct (last_reported ds2 name).
Qed.

Lemma last_reported_none {V} (ds : list (PyDict.t V)) (name : string) :
  (forall d, In d ds -> PyDict.get d name = None) ->
  last_reported ds name = None.
Proof.
  induction ds as [|d ds IH]; simpl; intros Hnone; [reflexivity|].
  rewrite IH by auto. auto.
Qed.

(** The loop stores into [output_sizes] the union of what the layers
    report, layer after layer. *)
Lemma collect_output_sizes_union (layers : list InputModule)
    (input_size : InputSize) (ds : list (PyDict.t Size))
    (acc : PyDict.t Size) :
  Forall2 (fun m d => module_forward_output_size m input_size = Ok d)
    layers ds ->
  PyDict.wf acc -> Forall PyDict.wf ds ->
  TabularFeatures.collect_output_sizes layers input_size acc
  = Ok (fold_left union ds acc).
Proof.
  intros Hall. revert acc.
  induction Hall as [|m d layers ds Hm _ IH]; intros acc Hacc Hds; simpl.
  - reflexivity.
  - inversion Hds; subst. rewrite Hm. simpl.
    rewrite update_is_union by assumption.
    apply IH; [now apply wf_union | assumption].
Qed.

(** A layer that raises ends the computation with its exception. *)
Lemma collect_output_sizes_raises (before after : list InputModule)
    (m : InputModule) (input_size : InputSize)
    (ds : list (PyDict.t Size)) (acc : PyDict.t Size) (e : PyExc) :
  Forall2 (fun m d => module_forward_output_size m input_size = Ok d)
    before ds ->
  module_forward_output_size m input_size = Raise e ->
  TabularFeatures.collect_output_sizes (before ++ m :: after) input_size acc
  = Raise e.
Proof.
  intros Hall Hm. revert acc.
  induction Hall as [|m' d layers ds Hm' _ IH]; intros acc; simpl.
  - now rewrite Hm.
  - rewrite Hm'. simpl. apply IH.
Qed.

(** C5: when each configured sub-module reports its output sizes,
    [forward_output_size] is the size transform of [TabularModule]
    (reached through [super()], with the aggregation of the instance)
    applied to the union of these reports, taken in the order continuous,
    categorical, text. *)
Theorem forward_output_size_is_super_of_union
    (c k t : option InputModule) (agg : option Aggregation)
    (w : World Construction) (input_size : InputSize)
    (ds : list (PyDict.t Size)) :
  Forall2 (fun m d => module_forward_output_size m input_size = Ok d)
    (configured c k t) ds ->
  Forall PyDict.wf ds ->
  exists self w',
    TabularFeatures.__init__ c k t agg w = (Ok self, w')
    /\ TabularFeatures.forward_output_size self input_size
       = super_forward_output_size agg (union_all ds).
Proof.
  intros Hall Hwf. rewrite init_returns. do 2 eexists.
  split; [reflexivity|].
  unfold TabularFeatures.forward_output_size. simpl.
  rewrite (collect_output_sizes_union _ _ ds) by
    (try assumption; constructor).
  reflexivity.
Qed.

(** C6: in the mapping [forward_output_size] hands to the size transform,
    every feature name occurs once and carries the size reported by the
    last configured sub-module (order continuous, categorical, text) that
    reports it; in particular a later report replaces an earlier one, and
    the composer raises nothing of its own on the way. *)
Theorem forward_output_size_later_report_wins
    (c k t : option InputModule) (agg : option Aggregation)
    (w : World Construction) (input_size : InputSize)
    (ds : list (PyDict.t Size)) :
  Forall2 (fun m d => module_forward_output_size m input_size = Ok d)
    (configured c k t) ds ->
  Forall PyDict.wf ds ->
  exists self w' output_sizes,
    TabularFeatures.__init__ c k t agg w = (Ok self, w')
    /\ TabularFeatures.collect_output_sizes
         (ob_items (TabularFeatures.to_apply self)) input_size PyDict.empty
       = Ok output_sizes
    /\ TabularFeatures.forward_output_size self input_size
       = super_forward_output_size agg output_sizes
    /\ PyDict.wf output_sizes
    /\ (forall name,
           PyDict.get output_sizes name = last_reported ds name)
    /\ (forall before earlier between later after name s_earlier s_later,
           ds = before ++ earlier :: between ++ later :: after ->
           PyDict.get earlier name = Some s_earlier ->
           PyDict.get later name = Some s_later ->
           (forall d, In d after -> PyDict.get d name = None) ->
           PyDict.get output_sizes name = Some s_later).
Proof.
  intros Hall Hwf. rewrite init_returns.
  exists (TabularFeatures.mk k c t
            (mkPyList (next_id w) (configured c k t)) agg).
  eexists. exists (union_all ds).
  assert (Hloop :
    TabularFeatures.collect_output_sizes (configured c k t) input_size
      PyDict.empty = Ok (union_all ds)).
  { apply collect_output_sizes_union; try assumption. constructor. }
  assert (Hget : forall name,
             PyDict.get (union_all ds) name = last_reported ds name).
  { intros name. unfold union_all. rewrite get_fold_union. simpl.
    now destruct (last_reported ds name). }
  split; [reflexivity|]. split; [exact Hloop|]. split.
  { unfold TabularFeatures.forward_output_size. simpl.
    now rewrite Hloop. }
  split; [apply wf_union_all; [constructor | exact Hwf]|].
  split; [exact Hget|].
  intros before earlier between later after name s1 s2 -> _ Hlater Hafter.
  rewrite Hget.
  rewrite (app_comm_cons between (later :: after) earlier), app_assoc.
  rewrite last_reported_app. simpl.
  now rewrite (last_reported_none after name Hafter), Hlater.
Qed.

End OutputSize.

Lemma forward_output_size_is_super_of_union_demo :
  exists self w',
    TabularFeatures.__init__ (H := Demo.world)
      (Some Demo.continuous) (Some Demo.categorical) None None Demo.start
    = (Ok self, w')
    /\ TabularFeatures.forward_output_size self []
       = Ok [("price", [-1; 1]); ("item_id", [-1; 64]);
             ("category", [-1; 64])].
Proof.
  apply (forward_output_size_is_super_of_union (H := Demo.world)
           (Some Demo.continuous) (Some Demo.categorical) None None
           Demo.start []
           [Demo.sizes Demo.continuous; Demo.sizes Demo.categorical]).
  - repeat constructor.
  - repeat constructor; simpl; intuition discriminate.
Defined.

Lemma forward_output_size_later_report_wins_demo :
  exists self w' output_sizes,
    TabularFeatures.__init__ (H := Demo.world)
      (Some Demo.continuous) (Some Demo.categorical) None None Demo.start
    = (Ok self, w')
    /\ TabularFeatures.forward_output_size self []
       = Ok output_sizes
    /\ PyDict.get output_sizes "item_id" = Some [-1; 64].
Proof.
  destruct (forward_output_size_later_report_wins (H := Demo.world)
              (Some Demo.continuous) (Some Demo.categorical) None None
              Demo.start []
              [Demo.sizes Demo.continuous; Demo.sizes Demo.categorical])
    as (self & w' & sizes & Hinit & _ & Hfos & _ & _ & Hlate).
  - repeat constructor.
  - repeat constructor; simpl; intuition discriminate.
  - exists self, w', sizes. split; [exact Hinit|]. split; [exact Hfos|].
    apply (Hlate [] (Demo.sizes Demo.continuous) []
             (Demo.sizes Demo.categorical) [] "item_id" [-1; 1] [-1; 64]);
      try reflexivity.
    intros d [].
Defined.

(** * Properties of the embedding layer *)

(** ** Construction-time validation *)

(** C9: whatever the capacity and the dimension, a [TableConfig] whose
    initializer is supplied and is not callable is refused with a
    [ValueError] whose message contains "initializer must be callable if
    specified"; with a callable initializer, or with none, construction
    returns the configuration. *)
Theorem table_config_checks_initializer
    (vocabulary_size dim : Z) (initializer : PyValue)
    (combiner name : option string) :
  (initializer <> PyNone -> callable initializer = false ->
   exists msg,
     TableConfig.__init__ vocabulary_size dim initializer combiner name
     = Raise (ValueError msg)
     /\ str_contains "initializer must be callable if specified" msg = true)
  /\ (initializer = PyNone \/ callable initializer = true ->
      exists cfg,
        TableConfig.__init__ vocabulary_size dim initializer combiner name
        = Ok cfg
        /\ TableConfig.vocabulary_size cfg = vocabulary_size
        /\ TableConfig.dim cfg = dim
        /\ TableConfig.name cfg = name).
Proof.
  split.
  - intros Hsupplied Hnot.
    destruct initializer; simpl in *; try congruence;
      (eexists; split; [reflexivity | reflexivity]).
  - intros [-> | Hcall].
    + simpl. eexists. repeat split.
    + destruct initializer; simpl in *; try discriminate.
      eexists. repeat split.
Qed.

Lemma table_config_checks_initializer_test :
  (exists msg,
      TableConfig.__init__ 100 15 (PyStr "INVALID INITIALIZER") None None
      = Raise (ValueError msg)
      /\ str_contains "initializer must be callable if specified" msg = true)
  /\ (exists cfg,
         TableConfig.__init__ 100 15 (PyCallable (Normal 1 (5 # 100))) None
           (Some "item_id") = Ok cfg
         /\ TableConfig.vocabulary_size cfg = 100
         /\ TableConfig.dim cfg = 15
         /\ TableConfig.name cfg = Some "item_id").
Proof.
  split.
  - apply (table_config_checks_initializer 100 15
             (PyStr "INVALID INITIALIZER") None None);
      [discriminate | reflexivity].
  - apply (table_config_checks_initializer 100 15
             (PyCallable (Normal 1 (5 # 100))) None (Some "item_id")).
    right. reflexivity.
Defined.

(** C10: [SoftEmbedding] is refused with an assertion error when
    [num_embeddings <= 0], the message naming the number of embeddings, and
    when [embeddings_dim <= 0], the message saying "greater than 0" and,
    the number of embeddings being in order, naming the embeddings
    dimension; with both sizes positive construction returns the module. *)
Theorem soft_embedding_checks_sizes
    (num_embeddings embeddings_dim : Z) (emb_initializer : option Fill) :
  (num_embeddings <= 0 ->
   exists msg,
     SoftEmbedding.__init__ num_embeddings embeddings_dim emb_initializer
     = Raise (AssertionError msg)
     /\ str_contains
          "number of embeddings for soft embeddings needs to be greater than 0"
          msg = true)
  /\ (embeddings_dim <= 0 ->
      exists msg,
        SoftEmbedding.__init__ num_embeddings embeddings_dim emb_initializer
        = Raise (AssertionError msg)
        /\ str_contains "greater than 0" msg = true
        /\ (0 < num_embeddings ->
            str_contains
              "embeddings dim for soft embeddings needs to be greater than 0"
              msg = true))
  /\ (0 < num_embeddings -> 0 < embeddings_dim ->
      exists self,
        SoftEmbedding.__init__ num_embeddings embeddings_dim emb_initializer
        = Ok self
        /\ EmbeddingFeatures.weight_shape (SoftEmbedding.embedding_table self)
           = [num_embeddings; embeddings_dim]).
Proof.
  unfold SoftEmbedding.__init__.
  repeat split.
  - intros Hn. destruct (Z.ltb_spec 0 num_embeddings); [lia|]. simpl.
    eexists. split; reflexivity.
  - intros Hd.
    destruct (Z.ltb_spec 0 num_embeddings); simpl.
    + destruct (Z.ltb_spec 0 embeddings_dim); [lia|]. simpl.
      eexists. repeat split; reflexivity.
    + eexists. split; [reflexivity|]. split; [reflexivity | lia].
  - intros Hn Hd.
    destruct (Z.ltb_spec 0 num_embeddings); [|lia].
    destruct (Z.ltb_spec 0 embeddings_dim); [|lia]. simpl.
    eexists. split; reflexivity.
Qed.

Lemma soft_embedding_checks_sizes_test :
  (exists msg,
      SoftEmbedding.__init__ 0 16 None = Raise (AssertionError msg)
      /\ str_contains
           "number of embeddings for soft embeddings needs to be greater than 0"
           msg = true)
  /\ (exists msg,
         SoftEmbedding.__init__ 10 0 None = Raise (AssertionError msg)
         /\ str_contains
              "embeddings dim for soft embeddings needs to be greater than 0"
              msg = true)
  /\ (exists self,
         SoftEmbedding.__init__ 64 16 None = Ok self
         /\ EmbeddingFeatures.weight_shape (SoftEmbedding.embedding_table self)
            = [64; 16]).
Proof.
  destruct (soft_embedding_checks_sizes 0 16 None) as (Hnum & _ & _).
  destruct (soft_embedding_checks_sizes 10 0 None) as (_ & Hdim & _).
  destruct (soft_embedding_checks_sizes 64 16 None) as (_ & _ & Hok).
  split; [apply Hnum; lia|]. split.
  - destruct Hdim as (msg & Hrun & _ & Hname); [lia|].
    exists msg. split; [exact Hrun | apply Hname; lia].
  - apply Hok; lia.
Defined.

(** ** The table registry *)

Section Registry.

Lemma same_table_refl (a : TableConfig.t) :
  EmbeddingFeatures.same_table a a = true.
Proof.
  unfold EmbeddingFeatures.same_table.
  destruct (TableConfig.name a); [apply String.eqb_refl|].
  destruct (TableConfig.eq_dec a a); [reflexivity | congruence].
Qed.

(** Two configurations of the same table are the same table as exactly
    the same configurations. *)
Lemma same_table_congr (a b c : TableConfig.t) :
  EmbeddingFeatures.same_table a b = true ->
  EmbeddingFeatures.same_table a c = EmbeddingFeatures.same_table b c.
Proof.
  unfold EmbeddingFeatures.same_table.
  destruct (TableConfig.name a) as [x|] eqn:Ha,
           (TableConfig.name b) as [y|] eqn:Hb; try discriminate.
  - intros Hxy. apply String.eqb_eq in Hxy. now subst.
  - destruct (TableConfig.eq_dec a b) as [->|]; [|discriminate].
    intros _. reflexivity.
Qed.

Lemma table_of_congr (tables : EmbeddingFeatures.Tables)
    (a b : TableConfig.t) :
  EmbeddingFeatures.same_table a b = true ->
  EmbeddingFeatures.table_of tables a = EmbeddingFeatures.table_of tables b.
Proof.
  intros Hab.
  induction tables as [|[owner tbl] tables IH]; simpl; [reflexivity|].
  now rewrite (same_table_congr a b owner Hab), IH.
Qed.

Lemma table_of_app (t1 t2 : EmbeddingFeatures.Tables) (cfg : TableConfig.t) :
  EmbeddingFeatures.table_of (t1 ++ t2) cfg
  = match EmbeddingFeatures.table_of t1 cfg with
    | Some tbl => Some tbl
    | None => EmbeddingFeatures.table_of t2 cfg
    end.
Proof.
  induction t1 as [|[owner tbl] t1 IH]; simpl; [reflexivity|].
  now destruct (EmbeddingFeatures.same_table cfg owner).
Qed.

(** A named configuration finds its table under its name. *)
Lemma table_of_named (tables : EmbeddingFeatures.Tables)
    (cfg : TableConfig.t) (name : string) :
  TableConfig.name cfg = Some name ->
  EmbeddingFeatures.table_of tables cfg
  = EmbeddingFeatures.lookup tables (Some name).
Proof.
  intros Hname.
  induction tables as [|[owner tbl] tables IH]; simpl; [reflexivity|].
  unfold EmbeddingFeatures.same_table. rewrite Hname, IH.
  now destruct (TableConfig.name owner).
Qed.

(** The registry gives a configuration the table allocated from the first
    configuration referenced for the same table. *)
Lemma registry_table_of (feature_config : PyDict.t FeatureConfig.t)
    (acc : EmbeddingFeatures.Tables) (cfg : TableConfig.t) :
  EmbeddingFeatures.table_of
    (fold_left (fun acc kv =>
                  EmbeddingFeatures.register acc (FeatureConfig.table (snd kv)))
       feature_config acc) cfg
  = match EmbeddingFeatures.table_of acc cfg with
    | Some tbl => Some tbl
    | None => option_map EmbeddingFeatures.allocate
                (first_same feature_config cfg)
    end.
Proof.
  revert acc.
  induction feature_config as [|[f fc] rest IH]; intros acc; simpl.
  - now destruct (EmbeddingFeatures.table_of acc cfg).
  - rewrite IH. clear IH. unfold EmbeddingFeatures.register, first_same.
    simpl.
    destruct (EmbeddingFeatures.table_of acc (FeatureConfig.table fc))
      eqn:Hfc.
    + destruct (EmbeddingFeatures.table_of acc cfg) eqn:Hcfg; [reflexivity|].
      destruct (EmbeddingFeatures.same_table cfg (FeatureConfig.table fc))
        eqn:Hsame; [|reflexivity].
      rewrite (table_of_congr acc _ _ Hsame) in Hcfg. congruence.
    + rewrite table_of_app. simpl.
      destruct (EmbeddingFeatures.table_of acc cfg) eqn:Hcfg; [reflexivity|].
      now destruct (EmbeddingFeatures.same_table cfg (FeatureConfig.table fc)).
Qed.

Lemma first_same_found (feature_config : PyDict.t FeatureConfig.t)
    (cfg : TableConfig.t) :
  In cfg (referenced_tables feature_config) ->
  exists owner,
    first_same feature_config cfg = Some owner
    /\ In owner (referenced_tables feature_config)
    /\ EmbeddingFeatures.same_table cfg owner = true.
Proof.
  intros Hin. unfold first_same.
  destruct (find _ (referenced_tables feature_config)) as [owner|] eqn:Hf.
  - apply find_some in Hf as [Ho Hn]. exists owner. auto.
  - exfalso. apply (find_none _ _ Hf) in Hin.
    rewrite same_table_refl in Hin. discriminate.
Qed.

Lemma referenced_in (feature_config : PyDict.t FeatureConfig.t)
    (f : string) (cfg : FeatureConfig.t) :
  In (f, cfg) feature_config ->
  In (FeatureConfig.table cfg) (referenced_tables feature_config).
Proof.
  intros Hin. unfold referenced_tables.
  change (FeatureConfig.table cfg)
    with ((fun kv : string * FeatureConfig.t =>
             FeatureConfig.table (snd kv)) (f, cfg)).
  now apply in_map.
Qed.

(** Construction returns: every feature finds its table in the registry. *)
Lemma embedding_features_init_returns
    (feature_config : PyDict.t FeatureConfig.t) (item_id : option string)
    (post : option TabularLayerNorm.t) :
  exists tables,
    EmbeddingFeatures.__init__ feature_config item_id post
    = Ok (EmbeddingFeatures.mk feature_config tables item_id post)
    /\ forall cfg,
        EmbeddingFeatures.table_of tables cfg
        = option_map EmbeddingFeatures.allocate (first_same feature_config cfg).
Proof.
  unfold EmbeddingFeatures.__init__.
  set (tables := fold_left
                   (fun acc kv =>
                      EmbeddingFeatures.register acc
                        (FeatureConfig.table (snd kv)))
                   feature_config []).
  assert (Htables : forall cfg,
    EmbeddingFeatures.table_of tables cfg
    = option_map EmbeddingFeatures.allocate (first_same feature_config cfg)).
  { intros cfg. subst tables. now rewrite registry_table_of. }
  exists tables. split; [|exact Htables].
  replace (forallb _ feature_config) with true; [reflexivity|].
  symmetry. apply forallb_forall. intros [f cfg] Hin. simpl.
  rewrite Htables.
  destruct (first_same_found feature_config (FeatureConfig.table cfg)
              (referenced_in _ _ _ Hin)) as (owner & -> & _).
  reflexivity.
Qed.

(** A configuration without a name owns its table: it shares it with no
    other configuration. *)
Lemma unnamed_table_is_its_own (feature_config : PyDict.t FeatureConfig.t)
    (cfg : TableConfig.t) :
  In cfg (referenced_tables feature_config) ->
  TableConfig.name cfg = None ->
  first_same feature_config cfg = Some cfg.
Proof.
  intros Hin Hname.
  destruct (first_same_found feature_config cfg Hin)
    as (owner & Hfirst & _ & Hsame).
  rewrite Hfirst. f_equal.
  unfold EmbeddingFeatures.same_table in Hsame. rewrite Hname in Hsame.
  destruct (TableConfig.name owner); [discriminate|].
  destruct (TableConfig.eq_dec cfg owner); [congruence | discriminate].
Qed.

(** Configurations of the same table have the same dimension as soon as
    the named ones agree. *)
Lemma same_table_same_dim (feature_config : PyDict.t FeatureConfig.t)
    (c1 c2 : TableConfig.t) :
  shared_tables_agree feature_config ->
  In c1 (referenced_tables feature_config) ->
  In c2 (referenced_tables feature_config) ->
  EmbeddingFeatures.same_table c1 c2 = true ->
  TableConfig.dim c1 = TableConfig.dim c2.
Proof.
  intros Hagree H1 H2. unfold EmbeddingFeatures.same_table.
  destruct (TableConfig.name c1) as [x|] eqn:Hn1,
           (TableConfig.name c2) as [y|] eqn:Hn2; try discriminate.
  - intros Hxy. apply String.eqb_eq in Hxy. subst y.
    exact (Hagree c1 c2 x H1 H2 Hn1 Hn2).
  - destruct (TableConfig.eq_dec c1 c2) as [->|]; [reflexivity | discriminate].
Qed.

End Registry.

(** ** Lookups *)

Section Lookups.

Lemma lookup_features_returns (features : PyDict.t FeatureConfig.t)
    (tables : EmbeddingFeatures.Tables) (inputs : PyDict.t Tensor) :
  (forall f cfg, In (f, cfg) features ->
     EmbeddingFeatures.table_of tables (FeatureConfig.table cfg) <> None) ->
  exists outputs,
    EmbeddingFeatures.lookup_features features tables inputs = Ok outputs
    /\ PyDict.keys outputs
       = filter (PyDict.mem inputs) (PyDict.keys features)
    /\ forall k y, In (k, y) outputs ->
         exists cfg x tbl,
           In (k, cfg) features
           /\ PyDict.get inputs k = Some x
           /\ EmbeddingFeatures.table_of tables (FeatureConfig.table cfg)
              = Some tbl
           /\ y = EmbeddingFeatures.embedding_lookup tbl x.
Proof.
  induction features as [|[f cfg] rest IH]; intros Htables; simpl.
  - exists []. repeat split. intros k y [].
  - destruct IH as (outs & Hrun & Hkeys & Hvals).
    { intros f' cfg' Hin. apply (Htables f' cfg'). now right. }
    unfold PyDict.mem at 1.
    destruct (PyDict.get inputs f) as [x|] eqn:Hx.
    + destruct (EmbeddingFeatures.table_of tables (FeatureConfig.table cfg))
        as [tbl|] eqn:Htbl.
      * rewrite Hrun. simpl. eexists. split; [reflexivity|].
        split; [simpl; now rewrite Hkeys|].
        intros k y [Heq|Hin].
        -- injection Heq as <- <-. exists cfg, x, tbl.
           repeat split; auto.
        -- destruct (Hvals k y Hin) as (cfg' & x' & tbl' & H1 & H2).
           exists cfg', x', tbl'. split; [now right | exact H2].
      * exfalso. apply (Htables f cfg); [now left | exact Htbl].
    + exists outs. split; [exact Hrun|]. split; [exact Hkeys|].
      intros k y Hin.
      destruct (Hvals k y Hin) as (cfg' & x' & tbl' & H1 & H2).
      exists cfg', x', tbl'. split; [now right | exact H2].
Qed.

End Lookups.

(** C7, on a configuration in which two features name the same table and
    ask for different dimensions (8 and 16), and on an input that also
    carries a column without configuration (as the batch a composer passes
    on does): the output has the configured features only, so its keys are
    not the keys of the input, and the two features, served by one table,
    come out with one and the same trailing dimension, which is not the
    dimension configured for the second. *)
Lemma embedding_features_shared_table_unconfigured_input :
  exists self outputs first second,
    EmbeddingFeatures.__init__ DemoEmbedding.conflicting_config None None
    = Ok self
    /\ EmbeddingFeatures.__call__ self DemoEmbedding.conflicting_batch
       = Ok outputs
    /\ PyDict.keys DemoEmbedding.conflicting_batch
       = ["item_id"; "price"; "last_item_id"]
    /\ PyDict.keys outputs = ["item_id"; "last_item_id"]
    /\ ~ (forall k, In k (PyDict.keys DemoEmbedding.conflicting_batch) ->
                    In k (PyDict.keys outputs))
    /\ PyDict.get outputs "item_id" = Some first
    /\ PyDict.get outputs "last_item_id" = Some second
    /\ option_map (fun cfg => TableConfig.dim (FeatureConfig.table cfg))
         (PyDict.get DemoEmbedding.conflicting_config "last_item_id")
       = Some 16
    /\ last (shape first) 0 = last (shape second) 0
    /\ last (shape second) 0 <> 16.
Proof.
  do 4 eexists. split; [reflexivity|]. split; [reflexivity|].
  split; [reflexivity|]. split; [reflexivity|]. split.
  { intros Hall. specialize (Hall "price"). simpl in Hall.
    destruct Hall as [H|[H|[]]]; [tauto | discriminate | discriminate]. }
  split; [reflexivity|]. split; [reflexivity|]. split; [reflexivity|].
  split; [reflexivity|]. simpl. discriminate.
Qed.

(** C7, as amended: for a feature configuration whose features agree on
    the dimension of the tables they share by name,
    [EmbeddingFeatures(feature_config)] is constructed and, called on an
    input mapping, returns a mapping whose keys are the configured features
    the input carries, in the order of the configuration: exactly the keys
    of the input when every input feature is configured, and the key list
    of the configuration when the input carries every configured feature.
    Each value has the shape of its input with one trailing dimension
    appended, the configured dimension of that feature. *)
Theorem embedding_features_keys_and_dims
    (feature_config : PyDict.t FeatureConfig.t) (inputs : PyDict.t Tensor) :
  PyDict.wf feature_config ->
  shared_tables_agree feature_config ->
  exists self outputs,
    EmbeddingFeatures.__init__ feature_config None None = Ok self
    /\ EmbeddingFeatures.__call__ self inputs = Ok outputs
    /\ PyDict.keys outputs
       = filter (PyDict.mem inputs) (PyDict.keys feature_config)
    /\ (forall k, In k (PyDict.keys outputs) <->
                  In k (PyDict.keys inputs)
                  /\ In k (PyDict.keys feature_config))
    /\ ((forall k, In k (PyDict.keys inputs) ->
                   In k (PyDict.keys feature_config)) ->
        forall k, In k (PyDict.keys outputs) <-> In k (PyDict.keys inputs))
    /\ ((forall k, In k (PyDict.keys feature_config) ->
                   In k (PyDict.keys inputs)) ->
        PyDict.keys outputs = PyDict.keys feature_config)
    /\ (forall k y, PyDict.get outputs k = Some y ->
          exists cfg x,
            PyDict.get feature_config k = Some cfg
            /\ PyDict.get inputs k = Some x
            /\ shape y = shape x ++ [TableConfig.dim (FeatureConfig.table cfg)]
            /\ last (shape y) 0
               = TableConfig.dim (FeatureConfig.table cfg)).
Proof.
  intros Hwf Hagree.
  destruct (embedding_features_init_returns feature_config None None)
    as (tables & Hinit & Htables).
  destruct (lookup_features_returns feature_config tables inputs)
    as (outputs & Hrun & Hkeys & Hvals).
  { intros f cfg Hin. rewrite Htables.
    destruct (first_same_found feature_config (FeatureConfig.table cfg)
                (referenced_in _ _ _ Hin)) as (owner & -> & _).
    discriminate. }
  assert (Hmem : forall k, In k (PyDict.keys outputs) <->
                           In k (PyDict.keys inputs)
                           /\ In k (PyDict.keys feature_config)).
  { intros k. rewrite Hkeys, filter_In, mem_true_iff. tauto. }
  exists (EmbeddingFeatures.mk feature_config tables None None), outputs.
  split; [exact Hinit|]. split.
  { unfold EmbeddingFeatures.__call__, EmbeddingFeatures.forward. simpl.
    now rewrite Hrun. }
  split; [exact Hkeys|]. split; [exact Hmem|]. split.
  { intros Hsub k. rewrite Hmem. split; [tauto | auto]. }
  split.
  { intros Hsub. rewrite Hkeys.
    rewrite <- (filter_ext_in (fun _ => true)).
    - clear. induction (PyDict.keys feature_config); simpl; congruence.
    - intros k Hk. symmetry. apply mem_true_iff. auto. }
  intros k y Hget. apply get_in in Hget.
  destruct (Hvals k y Hget) as (cfg & x & tbl & Hin & Hx & Htbl & ->).
  exists cfg, x. split; [now apply in_get|]. split; [exact Hx|].
  rewrite Htables in Htbl.
  destruct (first_same_found feature_config (FeatureConfig.table cfg)
              (referenced_in _ _ _ Hin)) as (owner & Hown & Hino & Hsame).
  rewrite Hown in Htbl. injection Htbl as <-.
  assert (Hdim : TableConfig.dim (FeatureConfig.table cfg)
                 = TableConfig.dim owner).
  { apply (same_table_same_dim feature_config);
      [exact Hagree | exact (referenced_in _ _ _ Hin) | exact Hino
      | exact Hsame]. }
  simpl. rewrite <- Hdim. split; [reflexivity | apply last_last].
Qed.

Lemma embedding_features_keys_and_dims_test :
  exists self outputs,
    EmbeddingFeatures.__init__ DemoEmbedding.feature_config None None = Ok self
    /\ EmbeddingFeatures.__call__ self DemoEmbedding.batch = Ok outputs
    /\ PyDict.keys outputs = PyDict.keys DemoEmbedding.feature_config
    /\ PyDict.get outputs "item_id" = Some (mkTensor [32; 20; 15]).
Proof.
  destruct (embedding_features_keys_and_dims DemoEmbedding.feature_config
              DemoEmbedding.batch)
    as (self & outputs & Hinit & Hcall & _ & _ & _ & Hkeys & _).
  - repeat constructor; simpl; intuition discriminate.
  - intros c1 c2 name H1 H2 _ _. simpl in H1, H2.
    destruct H1 as [<-|[<-|[]]], H2 as [<-|[<-|[]]]; reflexivity.
  - exists self, outputs. split; [exact Hinit|]. split; [exact Hcall|].
    split.
    + apply Hkeys. intros k Hk. simpl in *. tauto.
    + simpl in Hinit. injection Hinit as <-.
      simpl in Hcall. injection Hcall as <-. reflexivity.
Defined.

(** ** The schema-driven factory *)

Section Factory_from_schema.
Context `{FloatArithmetic}.
Variable opts : FromSchema.options.

Lemma column_table_constructed (col : ColumnSchema) :
  initializers_callable (FromSchema.embeddings_initializers opts) ->
  TableConfig.__init__ (FromSchema.capacity col)
    (FromSchema.dimension opts col) (FromSchema.initializer opts col)
    (FromSchema.combiner opts) (Some (column_name col))
  = Ok (column_table opts col).
Proof.
  intros Hcall. unfold column_table, FromSchema.initializer.
  destruct (PyDict.get (FromSchema.embeddings_initializers opts)
              (column_name col)) as [v|] eqn:Hv; [|reflexivity].
  destruct (Hcall _ _ Hv) as [->|Hc]; [reflexivity|].
  destruct v; simpl in Hc; try discriminate. reflexivity.
Qed.

Lemma mem_app_false {V} (d1 d2 : PyDict.t V) (k : string) :
  PyDict.mem d1 k = false -> PyDict.mem d2 k = false ->
  PyDict.mem (d1 ++ d2) k = false.
Proof.
  unfold PyDict.mem. rewrite get_app.
  now destruct (PyDict.get d1 k).
Qed.

(** On a schema whose column names are distinct the loop yields one
    feature per column, in the order of the schema. *)
Lemma feature_configs_returns (schema : list ColumnSchema)
    (acc : PyDict.t FeatureConfig.t) :
  initializers_callable (FromSchema.embeddings_initializers opts) ->
  NoDup (map column_name schema) ->
  (forall col, In col schema -> PyDict.mem acc (column_name col) = false) ->
  FromSchema.feature_configs opts schema acc
  = Ok (acc ++ map (column_feature opts) schema).
Proof.
  intros Hcall. revert acc.
  induction schema as [|col rest IH]; intros acc Hnodup Hfresh; simpl.
  - now rewrite app_nil_r.
  - rewrite column_table_constructed by assumption. simpl.
    inversion Hnodup as [|? ? Hcol Hrest]; subst.
    rewrite setitem_absent by (apply Hfresh; now left).
    rewrite IH.
    + now rewrite <- app_assoc.
    + exact Hrest.
    + intros col' Hin'. apply mem_app_false.
      * apply Hfresh. now right.
      * unfold PyDict.mem. simpl.
        destruct (String.eqb_spec (column_name col') (column_name col))
          as [He|]; [|reflexivity].
        exfalso. apply Hcol. rewrite <- He. now apply in_map.
Qed.

Lemma first_same_column (schema : list ColumnSchema) (col : ColumnSchema) :
  NoDup (map column_name schema) -> In col schema ->
  first_same (map (column_feature opts) schema) (column_table opts col)
  = Some (column_table opts col).
Proof.
  unfold first_same, referenced_tables. rewrite map_map. simpl.
  induction schema as [|c rest IH]; intros Hnodup Hin; [destruct Hin|].
  inversion Hnodup as [|? ? Hc Hrest]; subst. simpl.
  unfold EmbeddingFeatures.same_table at 1. simpl.
  destruct (String.eqb_spec (column_name col) (column_name c)) as [He|Hne].
  - destruct Hin as [->|Hin]; [reflexivity|].
    exfalso. apply Hc. rewrite <- He. now apply in_map.
  - destruct Hin as [->|Hin]; [congruence|]. now apply IH.
Qed.

End Factory_from_schema.

(** * Further properties of the composer *)

Section ConstructorMore.
Context `{Collaborators}.

Lemma present_effective (m : option InputModule) :
  present (effective m) = present m.
Proof.
  destruct m as [x|]; simpl; [|reflexivity].
  destruct (truth x) eqn:Hx; simpl; [now rewrite Hx | reflexivity].
Qed.

Lemma in_present (o : option InputModule) (m : InputModule) :
  In m (present o) <-> o = Some m /\ truth m = true.
Proof.
  destruct o as [x|]; simpl.
  - destruct (truth x) eqn:Hx; simpl.
    + split.
      * intros [->|[]]. auto.
      * intros [[= ->] _]. now left.
    + split; [intros [] | intros [[= ->] Ht]; congruence].
  - split; [intros [] | intros [[=] _]].
Qed.

Lemma length_present (o : option InputModule) :
  (List.length (present o) <= 1)%nat.
Proof.
  destruct o as [x|]; simpl; [destruct (truth x); simpl; lia | lia].
Qed.

(** X1: a module whose truth value is false is kept in its attribute but
    plays no part: the instance answers [forward] and
    [forward_output_size] exactly as the instance built with [None] in
    its place. *)
Theorem false_modules_count_as_absent
    (c k t : option InputModule) (agg : option Aggregation)
    (w : World Construction) :
  exists self other w1 w2,
    TabularFeatures.__init__ c k t agg w = (Ok self, w1)
    /\ TabularFeatures.__init__ (effective c) (effective k) (effective t)
         agg w = (Ok other, w2)
    /\ TabularFeatures.continuous_module self = c
    /\ TabularFeatures.categorical_module self = k
    /\ TabularFeatures.text_embedding_module self = t
    /\ (forall inputs,
           TabularFeatures.forward self inputs
           = TabularFeatures.forward other inputs)
    /\ (forall input_size,
           TabularFeatures.forward_output_size self input_size
           = TabularFeatures.forward_output_size other input_size).
Proof.
  rewrite !init_returns. do 4 eexists.
  split; [reflexivity|]. split; [reflexivity|].
  repeat (split; [reflexivity|]).
  assert (Hsame : configured (effective c) (effective k) (effective t)
                  = configured c k t).
  { unfold configured. now rewrite !present_effective. }
  split.
  - intros inputs. unfold TabularFeatures.forward. simpl. now rewrite Hsame.
  - intros input_size. unfold TabularFeatures.forward_output_size. simpl.
    now rewrite Hsame.
Qed.

(** X2: [to_apply] holds exactly the supplied modules whose truth value is
    true, and never more than three of them. *)
Theorem to_apply_holds_the_true_supplied_modules
    (c k t : option InputModule) (agg : option Aggregation)
    (w : World Construction) :
  exists self w',
    TabularFeatures.__init__ c k t agg w = (Ok self, w')
    /\ (forall m,
           In m (ob_items (TabularFeatures.to_apply self))
           <-> supplied c k t m /\ truth m = true)
    /\ (List.length (ob_items (TabularFeatures.to_apply self)) <= 3)%nat.
Proof.
  rewrite init_returns. do 2 eexists. split; [reflexivity|]. simpl.
  split.
  - intros m. unfold configured, supplied.
    rewrite !in_app_iff, !in_present. tauto.
  - unfold configured. rewrite !length_app.
    pose proof (length_present c). pose proof (length_present k).
    pose proof (length_present t). lia.
Qed.

(** X3: the constructor asks nothing of the factories, and two instances
    built one after the other never share their [to_apply] list. *)
Theorem instances_own_their_to_apply
    (c1 k1 t1 c2 k2 t2 : option InputModule)
    (agg1 agg2 : option Aggregation) (w : World Construction) :
  exists self1 w1 self2 w2,
    TabularFeatures.__init__ c1 k1 t1 agg1 w = (Ok self1, w1)
    /\ TabularFeatures.__init__ c2 k2 t2 agg2 w1 = (Ok self2, w2)
    /\ ob_id (TabularFeatures.to_apply self1)
       <> ob_id (TabularFeatures.to_apply self2)
    /\ trace w2 = trace w.
Proof.
  rewrite init_returns. do 2 eexists.
  rewrite init_returns. do 2 eexists.
  split; [reflexivity|]. split; [reflexivity|]. simpl. split; [lia | reflexivity].
Qed.


(** X9: the exception of the first sub-module that fails to report its
    sizes is the outcome of [forward_output_size], whatever the sub-modules
    after it and the size transform would do. *)
Theorem forward_output_size_propagates_exception
    (c k t : option InputModule) (agg : option Aggregation)
    (w : World Construction) (input_size : InputSize)
    (before after : list InputModule) (m : InputModule)
    (ds : list (PyDict.t Size)) (e : PyExc) :
  configured c k t = before ++ m :: after ->
  Forall2 (fun m d => module_forward_output_size m input_size = Ok d)
    before ds ->
  module_forward_output_size m input_size = Raise e ->
  exists self w',
    TabularFeatures.__init__ c k t agg w = (Ok self, w')
    /\ TabularFeatures.forward_output_size self input_size = Raise e.
Proof.
  intros Hconf Hbefore Hm. rewrite init_returns. do 2 eexists.
  split; [reflexivity|].
  unfold TabularFeatures.forward_output_size. simpl. rewrite Hconf.
  now rewrite (collect_output_sizes_raises before after m input_size ds
                 PyDict.empty e Hbefore Hm).
Qed.

End ConstructorMore.


Lemma forward_output_size_propagates_exception_demo :
  exists self w',
    TabularFeatures.__init__ (H := DemoFailing.world)
      (Some Demo.continuous) (Some DemoFailing.broken) (Some Demo.text)
      None DemoFailing.start = (Ok self, w')
    /\ TabularFeatures.forward_output_size self []
       = Raise (OtherException "RuntimeError" "broken module").
Proof.
  apply (forward_output_size_propagates_exception (H := DemoFailing.world)
           (Some Demo.continuous) (Some DemoFailing.broken) (Some Demo.text)
           None DemoFailing.start [] [Demo.continuous] [Demo.text]
           DemoFailing.broken [Demo.sizes Demo.continuous]).
  - reflexivity.
  - repeat constructor.
  - reflexivity.
Defined.

Lemma from_column_group_continuous_raises_demo :
  TabularFeatures.from_column_group (H := DemoFailing.world) []
    (TagsOne CONTINUOUS) TagsNone (TagsOne CATEGORICAL) TagsNone
    None (TagsOne TEXT_TOKENIZED) TagsNone None None DemoFailing.start
  = (Raise (ValueError "no continuous column"),
     mkWorld 0%nat
       [@BuildContinuous DemoFailing.world [] (TagsOne CONTINUOUS) TagsNone]).
Proof.
  apply (from_column_group_continuous_raises (H := DemoFailing.world) []
           (TagsOne CONTINUOUS) TagsNone (TagsOne CATEGORICAL) TagsNone
           None (TagsOne TEXT_TOKENIZED) TagsNone None None
           DemoFailing.start (ValueError "no continuous column"));
    reflexivity.
Defined.

Section FactoryMore.
Context `{Collaborators}.

(** X4: applied to the instance [from_column_group] returns, [forward]
    calls the first module among the continuous one, the categorical one
    and [text_model] that was built (or given) and is true, on the whole
    input, with the others that follow it as [merge_with]. *)
Theorem from_column_group_then_forward
    (column_group : ColumnGroup)
    (continuous_tags continuous_tags_to_filter : TagsArg)
    (categorical_tags categorical_tags_to_filter : TagsArg)
    (text_model : option InputModule)
    (text_tags text_tags_to_filter : TagsArg)
    (max_text_length : option Z)
    (agg : option Aggregation) (w : World Construction)
    (mc mk : option InputModule)
    (first : InputModule) (remaining : list InputModule) :
  (if tags_truth continuous_tags
   then ContinuousFeatures_from_column_group column_group continuous_tags
          continuous_tags_to_filter
   else Ok None) = Ok mc ->
  (if tags_truth categorical_tags
   then EmbeddingFeatures_from_column_group column_group categorical_tags
          categorical_tags_to_filter
   else Ok None) = Ok mk ->
  configured mc mk text_model = first :: remaining ->
  exists self w',
    TabularFeatures.from_column_group column_group
      continuous_tags continuous_tags_to_filter
      categorical_tags categorical_tags_to_filter
      text_model text_tags text_tags_to_filter max_text_length agg w
    = (Ok self, w')
    /\ forall inputs,
        TabularFeatures.forward self inputs
        = call first inputs (merge_collection remaining).
Proof.
  intros Hc Hk Hconf.
  unfold TabularFeatures.from_column_group, py_bind.
  rewrite extern_if_trace, Hc. cbv beta iota.
  rewrite extern_if_trace, Hk. cbv beta iota.
  rewrite init_returns. do 2 eexists. split; [reflexivity|].
  intros inputs. unfold TabularFeatures.forward. simpl.
  rewrite Hconf. simpl. destruct remaining; reflexivity.
Qed.

(** X5: with both tag selectors empty and no text model,
    [from_column_group] asks no factory and still returns an instance; on
    that instance every [forward] raises [IndexError]. *)
Theorem from_column_group_without_selection
    (column_group : ColumnGroup)
    (continuous_tags continuous_tags_to_filter : TagsArg)
    (categorical_tags categorical_tags_to_filter : TagsArg)
    (text_tags text_tags_to_filter : TagsArg)
    (max_text_length : option Z)
    (agg : option Aggregation) (w : World Construction) :
  tags_truth continuous_tags = false ->
  tags_truth categorical_tags = false ->
  exists self w',
    TabularFeatures.from_column_group column_group
      continuous_tags continuous_tags_to_filter
      categorical_tags categorical_tags_to_filter
      None text_tags text_tags_to_filter max_text_length agg w
    = (Ok self, w')
    /\ trace w' = trace w
    /\ forall inputs,
        TabularFeatures.forward self inputs
        = Raise (IndexError "list index out of range").
Proof.
  intros Hc Hk.
  unfold TabularFeatures.from_column_group, py_bind.
  rewrite Hc, Hk. unfold py_ret at 1 2. cbv beta iota.
  rewrite init_returns. do 2 eexists. split; [reflexivity|].
  split; reflexivity.
Qed.

(** X7: when the embedding factory raises, its exception leaves
    [from_column_group] after the continuous module, if one was selected,
    has been built; no instance is built. *)
Theorem from_column_group_embedding_raises
    (column_group : ColumnGroup)
    (continuous_tags continuous_tags_to_filter : TagsArg)
    (categorical_tags categorical_tags_to_filter : TagsArg)
    (text_model : option InputModule)
    (text_tags text_tags_to_filter : TagsArg)
    (max_text_length : option Z)
    (agg : option Aggregation) (w : World Construction)
    (mc : option InputModule) (e : PyExc) :
  (if tags_truth continuous_tags
   then ContinuousFeatures_from_column_group column_group continuous_tags
          continuous_tags_to_filter
   else Ok None) = Ok mc ->
  tags_truth categorical_tags = true ->
  EmbeddingFeatures_from_column_group column_group categorical_tags
    categorical_tags_to_filter = Raise e ->
  TabularFeatures.from_column_group column_group
    continuous_tags continuous_tags_to_filter
    categorical_tags categorical_tags_to_filter
    text_model text_tags text_tags_to_filter max_text_length agg w
  = (Raise e,
     mkWorld (next_id w)
       (trace w ++ expected_constructions column_group
                     continuous_tags continuous_tags_to_filter
                     categorical_tags categorical_tags_to_filter)).
Proof.
  intros Hc Hk Hraise.
  unfold TabularFeatures.from_column_group, py_bind.
  rewrite extern_if_trace, Hc. cbv beta iota.
  rewrite extern_if_trace, Hk, Hraise. simpl.
  unfold expected_constructions. now rewrite Hk, app_assoc.
Qed.

End FactoryMore.

Lemma from_column_group_then_forward_demo :
  exists (self : @TabularFeatures.t Demo.world) w',
    TabularFeatures.from_column_group (H := Demo.world) ["price"]
      (TagsList []) TagsNone (TagsOne CATEGORICAL) TagsNone
      (Some Demo.text) (TagsOne TEXT_TOKENIZED) TagsNone None None Demo.start
    = (Ok self, w')
    /\ forall inputs,
        TabularFeatures.forward self inputs
        = Ok (Demo.mkAnswer "categorical" inputs (Some ["text"])).
Proof.
  apply (from_column_group_then_forward (H := Demo.world) ["price"]
           (TagsList []) TagsNone (TagsOne CATEGORICAL) TagsNone
           (Some Demo.text) (TagsOne TEXT_TOKENIZED) TagsNone None None
           Demo.start None
           (Some (Demo.mkModule "categorical" true [("price", [-1; 64])]))
           (Demo.mkModule "categorical" true [("price", [-1; 64])])
           [Demo.text]);
    reflexivity.
Defined.

Lemma from_column_group_without_selection_demo :
  exists (self : @TabularFeatures.t Demo.world) w',
    TabularFeatures.from_column_group (H := Demo.world) ["price"]
      TagsNone TagsNone (TagsList []) TagsNone
      None (TagsOne TEXT_TOKENIZED) TagsNone None None Demo.start
    = (Ok self, w')
    /\ trace w' = []
    /\ forall inputs,
        TabularFeatures.forward self inputs
        = Raise (IndexError "list index out of range").
Proof.
  apply (from_column_group_without_selection (H := Demo.world) ["price"]
           TagsNone TagsNone (TagsList []) TagsNone
           (TagsOne TEXT_TOKENIZED) TagsNone None None Demo.start);
    reflexivity.
Defined.

Lemma from_column_group_embedding_raises_demo :
  TabularFeatures.from_column_group (H := DemoFailing.world) ["price"]
    (TagsOne CONTINUOUS) TagsNone (TagsOne CATEGORICAL) TagsNone
    None (TagsOne TEXT_TOKENIZED) TagsNone None None DemoFailing.start
  = (Raise (OtherException "KeyError" "int_domain"),
     mkWorld 0%nat
       [@BuildContinuous DemoFailing.world ["price"] (TagsOne CONTINUOUS)
          TagsNone;
        @BuildEmbedding DemoFailing.world ["price"] (TagsOne CATEGORICAL)
          TagsNone]).
Proof.
  apply (from_column_group_embedding_raises (H := DemoFailing.world) ["price"]
           (TagsOne CONTINUOUS) TagsNone (TagsOne CATEGORICAL) TagsNone
           None (TagsOne TEXT_TOKENIZED) TagsNone None None
           DemoFailing.start
           (Some (Demo.mkModule "continuous" true [("price", [-1; 1])]))
           (OtherException "KeyError" "int_domain"));
    reflexivity.
Defined.

(** ** The names and order of the collected sizes *)

Section ReportOrder.

Lemma filter_filter {A} (p q : A -> bool) (l : list A) :
  filter p (filter q l) = filter (fun x => q x && p x) l.
Proof.
  induction l as [|x l IH]; simpl; [reflexivity|].
  destruct (q x) eqn:Hq; simpl; [|exact IH].
  destruct (p x); simpl; now rewrite IH.
Qed.

Lemma first_occurrences_filter (p : string -> bool) (l : list string) :
  filter p (first_occurrences l) = first_occurrences (filter p l).
Proof.
  induction l as [|k l IH]; simpl; [reflexivity|].
  destruct (p k) eqn:Hp; simpl.
  - f_equal. rewrite <- IH, !filter_filter.
    apply filter_ext. intros x. apply andb_comm.
  - rewrite <- IH, filter_filter. apply filter_ext. intros x.
    destruct (String.eqb_spec x k) as [->|]; simpl; [now rewrite Hp | reflexivity].
Qed.

Lemma first_occurrences_app (l1 l2 : list string) :
  first_occurrences (l1 ++ l2)
  = first_occurrences l1
    ++ filter (fun k => negb (existsb (String.eqb k) l1))
         (first_occurrences l2).
Proof.
  induction l1 as [|k l1 IH]; simpl.
  - induction (first_occurrences l2); simpl; congruence.
  - f_equal. rewrite IH, filter_app, filter_filter. f_equal.
    apply filter_ext. intros x.
    rewrite negb_orb. apply andb_comm.
Qed.

Lemma first_occurrences_nodup (l : list string) :
  NoDup l -> first_occurrences l = l.
Proof.
  induction 1 as [|k l Hk _ IH]; simpl; [reflexivity|].
  rewrite IH. f_equal.
  rewrite <- (filter_ext_in (fun _ => true)).
  - clear. induction l; simpl; congruence.
  - intros x Hx. destruct (String.eqb_spec x k) as [->|]; [contradiction | reflexivity].
Qed.

Lemma mem_existsb {V} (d : PyDict.t V) (k : string) :
  PyDict.mem d k = existsb (String.eqb k) (PyDict.keys d).
Proof.
  unfold PyDict.mem.
  induction d as [|[k1 v1] d IH]; simpl; [reflexivity|].
  destruct (String.eqb k k1); [reflexivity | exact IH].
Qed.

(** The keys of the accumulated mapping: every reported name, at the place
    of its first report. *)
Lemma keys_fold_union {V} (ds : list (PyDict.t V)) (acc : PyDict.t V) :
  PyDict.wf acc -> Forall PyDict.wf ds ->
  PyDict.keys (fold_left union ds acc)
  = first_occurrences (PyDict.keys acc ++ reported_names ds).
Proof.
  revert acc. induction ds as [|d ds IH]; intros acc Hacc Hds; simpl.
  - rewrite app_nil_r. symmetry. now apply first_occurrences_nodup.
  - inversion Hds as [|? ? Hd Hrest]; subst.
    rewrite IH by (try assumption; now apply wf_union).
    rewrite keys_union, <- app_assoc.
    change (reported_names (d :: ds))
      with (PyDict.keys d ++ reported_names ds).
    rewrite (first_occurrences_app (PyDict.keys acc)
               (filter (fun k => negb (PyDict.mem acc k)) (PyDict.keys d)
                ++ reported_names ds)).
    rewrite (first_occurrences_app (PyDict.keys acc)
               (PyDict.keys d ++ reported_names ds)).
    f_equal. rewrite !first_occurrences_filter. f_equal.
    rewrite !filter_app. f_equal.
    rewrite filter_filter. apply filter_ext. intros x.
    rewrite mem_existsb.
    now destruct (existsb (String.eqb x) (PyDict.keys acc)).
Qed.

Lemma nodup_app_disjoint {A} (l1 l2 : list A) :
  NoDup (l1 ++ l2) -> forall x, In x l1 -> ~ In x l2.
Proof.
  induction l1 as [|a l1 IH]; simpl; intros Hnd x Hin; [destruct Hin|].
  inversion Hnd as [|? ? Ha Hrest]; subst.
  destruct Hin as [->|Hin].
  - intros Hx. apply Ha. apply in_or_app. now right.
  - now apply IH.
Qed.

Lemma union_disjoint {V} (d1 d2 : PyDict.t V) :
  (forall k, In k (PyDict.keys d1) -> ~ In k (PyDict.keys d2)) ->
  union d1 d2 = d1 ++ d2.
Proof.
  intros Hdis. unfold union. f_equal.
  - rewrite <- (map_id d1) at 2. apply map_ext_in. intros [k v] Hin. simpl.
    assert (Hnone : PyDict.get d2 k = None).
    { apply get_none_iff, Hdis. change k with (fst (k, v)). now apply in_map. }
    now rewrite Hnone.
  - rewrite <- (filter_ext_in (fun _ => true)).
    + clear. induction d2; simpl; congruence.
    + intros [k v] Hin. simpl. symmetry. apply negb_true_iff.
      destruct (PyDict.mem d1 k) eqn:Hm; [|reflexivity].
      apply mem_true_iff in Hm. exfalso. apply (Hdis k Hm).
      change k with (fst (k, v)). now apply in_map.
Qed.

Lemma fold_union_disjoint {V} (ds : list (PyDict.t V)) (acc : PyDict.t V) :
  NoDup (PyDict.keys acc ++ reported_names ds) ->
  fold_left union ds acc = acc ++ List.concat ds.
Proof.
  revert acc. induction ds as [|d ds IH]; intros acc Hnd; simpl.
  - now rewrite app_nil_r.
  - simpl in Hnd. rewrite union_disjoint.
    + rewrite IH; [now rewrite <- app_assoc|].
      unfold PyDict.keys in *. now rewrite map_app, <- app_assoc.
    + intros k' Hk' Hin. eapply nodup_app_disjoint; [exact Hnd | exact Hk' |].
      apply in_or_app. now left.
Qed.

Lemma nodup_reports_wf {V} (ds : list (PyDict.t V)) :
  NoDup (reported_names ds) -> Forall PyDict.wf ds.
Proof.
  induction ds as [|d ds IH]; simpl; intros Hnd; constructor.
  - exact (NoDup_app_remove_r _ _ Hnd).
  - apply IH. exact (NoDup_app_remove_l _ _ Hnd).
Qed.

End ReportOrder.

Section OutputSizeMore.
Context `{Collaborators}.

(** X10: when no feature name is reported twice, the mapping handed to
    the size transform is the plain concatenation of the reports of the
    configured sub-modules, continuous first, then categorical, then
    text. *)
Theorem forward_output_size_of_disjoint_reports
    (c k t : option InputModule) (agg : option Aggregation)
    (w : World Construction) (input_size : InputSize)
    (ds : list (PyDict.t Size)) :
  Forall2 (fun m d => module_forward_output_size m input_size = Ok d)
    (configured c k t) ds ->
  NoDup (reported_names ds) ->
  exists self w',
    TabularFeatures.__init__ c k t agg w = (Ok self, w')
    /\ TabularFeatures.forward_output_size self input_size
       = super_forward_output_size agg (List.concat ds).
Proof.
  intros Hall Hnd. rewrite init_returns. do 2 eexists.
  split; [reflexivity|].
  unfold TabularFeatures.forward_output_size. simpl.
  rewrite (collect_output_sizes_union _ _ ds);
    [| exact Hall | constructor | now apply nodup_reports_wf].
  simpl. now rewrite fold_union_disjoint.
Qed.

(** X11: in the mapping handed to the size transform the feature names
    come in the order in which they are first reported, each once. *)
Theorem forward_output_size_orders_names_by_first_report
    (c k t : option InputModule) (agg : option Aggregation)
    (w : World Construction) (input_size : InputSize)
    (ds : list (PyDict.t Size)) :
  Forall2 (fun m d => module_forward_output_size m input_size = Ok d)
    (configured c k t) ds ->
  Forall PyDict.wf ds ->
  exists self w' output_sizes,
    TabularFeatures.__init__ c k t agg w = (Ok self, w')
    /\ TabularFeatures.collect_output_sizes
         (ob_items (TabularFeatures.to_apply self)) input_size PyDict.empty
       = Ok output_sizes
    /\ TabularFeatures.forward_output_size self input_size
       = super_forward_output_size agg output_sizes
    /\ PyDict.keys output_sizes = first_occurrences (reported_names ds).
Proof.
  intros Hall Hwf. rewrite init_returns. do 2 eexists.
  exists (fold_left union ds PyDict.empty).
  assert (Hloop :
    TabularFeatures.collect_output_sizes (configured c k t) input_size
      PyDict.empty = Ok (fold_left union ds PyDict.empty)).
  { apply collect_output_sizes_union; try assumption. constructor. }
  split; [reflexivity|]. split; [exact Hloop|]. split.
  - unfold TabularFeatures.forward_output_size. simpl. now rewrite Hloop.
  - rewrite keys_fold_union; [reflexivity | constructor | exact Hwf].
Qed.

End OutputSizeMore.

Lemma forward_output_size_of_disjoint_reports_demo :
  exists self w',
    TabularFeatures.__init__ (H := Demo.world)
      (Some Demo.continuous) None (Some Demo.text) None Demo.start
    = (Ok self, w')
    /\ TabularFeatures.forward_output_size self []
       = Ok [("price", [-1; 1]); ("item_id", [-1; 1]); ("title", [-1; 768])].
Proof.
  apply (forward_output_size_of_disjoint_reports (H := Demo.world)
           (Some Demo.continuous) None (Some Demo.text) None Demo.start []
           [Demo.sizes Demo.continuous; Demo.sizes Demo.text]).
  - repeat constructor.
  - repeat constructor; simpl; intuition discriminate.
Defined.

Lemma forward_output_size_orders_names_by_first_report_demo :
  exists self w' output_sizes,
    TabularFeatures.__init__ (H := Demo.world)
      (Some Demo.continuous) (Some Demo.categorical) (Some Demo.text) None
      Demo.start = (Ok self, w')
    /\ TabularFeatures.forward_output_size self [] = Ok output_sizes
    /\ PyDict.keys output_sizes = ["price"; "item_id"; "category"; "title"].
Proof.
  destruct (forward_output_size_orders_names_by_first_report (H := Demo.world)
              (Some Demo.continuous) (Some Demo.categorical) (Some Demo.text)
              None Demo.start []
              [Demo.sizes Demo.continuous; Demo.sizes Demo.categorical;
               Demo.sizes Demo.text])
    as (self & w' & sizes & Hinit & _ & Hfos & Hkeys).
  - repeat constructor.
  - repeat constructor; simpl; intuition discriminate.
  - exists self, w', sizes. split; [exact Hinit|]. split; [exact Hfos|].
    exact Hkeys.
Defined.

(** * Further properties of the embedding layer *)

Section FromSchemaMore.
Context `{FloatArithmetic}.

Lemma find_the_only {A} (p : A -> bool) (l : list A) (a : A) :
  In a l -> p a = true ->
  (forall b, In b l -> p b = true -> b = a) ->
  find p l = Some a.
Proof.
  induction l as [|x l IH]; simpl; intros Hin Hp Honly; [destruct Hin|].
  destruct (p x) eqn:Hx.
  - f_equal. apply Honly; [now left | exact Hx].
  - destruct Hin as [->|Hin]; [congruence|].
    apply IH; [exact Hin | exact Hp |].
    intros b Hb. apply Honly. now right.
Qed.

(** What the factory returns on a schema with distinct column names: one
    feature per column, the recorded item identifier, and for each column
    the table allocated from its own configuration. *)
Lemma from_schema_returns (schema : list ColumnSchema)
    (opts : FromSchema.options) :
  NoDup (map column_name schema) ->
  initializers_callable (FromSchema.embeddings_initializers opts) ->
  exists self,
    FromSchema.from_schema schema opts = Ok self
    /\ EmbeddingFeatures.feature_config self
       = map (column_feature opts) schema
    /\ EmbeddingFeatures.item_id self = FromSchema.find_item_id schema
    /\ forall col, In col schema ->
         EmbeddingFeatures.lookup (EmbeddingFeatures.embedding_tables self)
           (Some (column_name col))
         = Some (EmbeddingFeatures.allocate (column_table opts col)).
Proof.
  intros Hnodup Hcall. unfold FromSchema.from_schema.
  rewrite (feature_configs_returns opts schema PyDict.empty Hcall Hnodup)
    by reflexivity.
  simpl.
  destruct (embedding_features_init_returns
              (map (column_feature opts) schema)
              (FromSchema.find_item_id schema)
              (if FromSchema.layer_norm opts
               then Some (TabularLayerNorm.from_feature_config
                            (map (column_feature opts) schema))
               else None))
    as (tables & Hinit & Htables).
  rewrite Hinit. eexists. split; [reflexivity|]. simpl.
  split; [reflexivity|]. split; [reflexivity|].
  intros col Hin.
  rewrite <- (table_of_named tables (column_table opts col) (column_name col))
    by reflexivity.
  now rewrite Htables, (first_same_column opts schema col Hnodup Hin).
Qed.

(** X12 (embedding layer as modelled from the specification): with
    inference disabled, the table [from_schema] allocates for a column has
    [domain.max + 1] rows and, as second axis, the per-feature dimension
    given for the column, or the default dimension when none is given. *)
Theorem table_dimension_without_inference
    (schema : list ColumnSchema) (opts : FromSchema.options)
    (col : ColumnSchema) :
  NoDup (map column_name schema) ->
  In col schema ->
  initializers_callable (FromSchema.embeddings_initializers opts) ->
  FromSchema.infer_embedding_sizes opts = false ->
  exists self tbl,
    FromSchema.from_schema schema opts = Ok self
    /\ EmbeddingFeatures.lookup (EmbeddingFeatures.embedding_tables self)
         (Some (column_name col)) = Some tbl
    /\ EmbeddingFeatures.num_embeddings tbl = max (int_domain col) + 1
    /\ second_axis tbl
       = match PyDict.get (FromSchema.embedding_dims opts) (column_name col)
         with
         | Some d => d
         | None => FromSchema.embedding_dim_default opts
         end.
Proof.
  intros Hnodup Hin Hcall Hinfer.
  destruct (from_schema_returns schema opts Hnodup Hcall)
    as (self & Hrun & _ & _ & Htables).
  exists self, (EmbeddingFeatures.allocate (column_table opts col)).
  split; [exact Hrun|]. split; [now apply Htables|].
  split; [reflexivity|].
  unfold second_axis. simpl. unfold FromSchema.dimension.
  now rewrite Hinfer.
Qed.

(** X13 (embedding layer as modelled from the specification): the column
    tagged as item identifier is the one [from_schema] records as
    [item_id], and the table registered under that name has
    [domain.max + 1] rows. *)
Theorem item_id_column_is_recorded
    (schema : list ColumnSchema) (opts : FromSchema.options)
    (col : ColumnSchema) :
  NoDup (map column_name schema) ->
  In col schema ->
  initializers_callable (FromSchema.embeddings_initializers opts) ->
  existsb is_item_id (tags col) = true ->
  (forall other, In other schema ->
     existsb is_item_id (tags other) = true -> other = col) ->
  exists self tbl,
    FromSchema.from_schema schema opts = Ok self
    /\ EmbeddingFeatures.item_id self = Some (column_name col)
    /\ EmbeddingFeatures.lookup (EmbeddingFeatures.embedding_tables self)
         (EmbeddingFeatures.item_id self) = Some tbl
    /\ EmbeddingFeatures.num_embeddings tbl = max (int_domain col) + 1.
Proof.
  intros Hnodup Hin Hcall Htag Honly.
  destruct (from_schema_returns schema opts Hnodup Hcall)
    as (self & Hrun & _ & Hitem & Htables).
  assert (Hid : EmbeddingFeatures.item_id self = Some (column_name col)).
  { rewrite Hitem. unfold FromSchema.find_item_id.
    now rewrite (find_the_only _ schema col Hin Htag Honly). }
  exists self, (EmbeddingFeatures.allocate (column_table opts col)).
  split; [exact Hrun|]. split; [exact Hid|].
  split; [rewrite Hid; now apply Htables | reflexivity].
Qed.

End FromSchemaMore.

Lemma table_dimension_without_inference_test :
  exists self tbl,
    FromSchema.from_schema (H := DemoEmbedding.host) DemoEmbedding.schema
      (FromSchema.mkOptions [("item_id", 100)] 64 false (2 # 1) []
         (Some "mean") true) = Ok self
    /\ EmbeddingFeatures.lookup (EmbeddingFeatures.embedding_tables self)
         (Some "category") = Some tbl
    /\ EmbeddingFeatures.num_embeddings tbl = 332
    /\ second_axis tbl = 64.
Proof.
  apply (table_dimension_without_inference (H := DemoEmbedding.host)
           DemoEmbedding.schema
           (FromSchema.mkOptions [("item_id", 100)] 64 false (2 # 1) []
              (Some "mean") true)
           (mkColumn "category" (mkIntDomain 0 331) [CATEGORICAL])).
  - repeat constructor; simpl; intuition discriminate.
  - right. now left.
  - intros k v Hget. discriminate.
  - reflexivity.
Defined.

Lemma item_id_column_is_recorded_test :
  exists self tbl,
    FromSchema.from_schema (H := DemoEmbedding.host) DemoEmbedding.schema
      DemoEmbedding.infer_sizes = Ok self
    /\ EmbeddingFeatures.item_id self = Some "item_id"
    /\ EmbeddingFeatures.lookup (EmbeddingFeatures.embedding_tables self)
         (EmbeddingFeatures.item_id self) = Some tbl
    /\ EmbeddingFeatures.num_embeddings tbl = 51997.
Proof.
  apply (item_id_column_is_recorded (H := DemoEmbedding.host)
           DemoEmbedding.schema DemoEmbedding.infer_sizes
           (mkColumn "item_id" (mkIntDomain 0 51996) [CATEGORICAL; ITEM_ID])).
  - repeat constructor; simpl; intuition discriminate.
  - now left.
  - intros k v Hget. discriminate.
  - reflexivity.
  - intros other [<-|[<-|[]]] Htag; [reflexivity | discriminate].
Defined.

(** * The factory and the output sizes *)

Section FactoryOutputSize.
Context `{Collaborators}.

(** X15: on the instance [from_column_group] returns,
    [forward_output_size] is the size transform of [TabularModule], with
    the aggregation given to the factory, applied to the union of the
    sizes reported by the modules that were built (or given) and are true,
    continuous first, then categorical, then the text model. *)
Theorem from_column_group_then_forward_output_size
    (column_group : ColumnGroup)
    (continuous_tags continuous_tags_to_filter : TagsArg)
    (categorical_tags categorical_tags_to_filter : TagsArg)
    (text_model : option InputModule)
    (text_tags text_tags_to_filter : TagsArg)
    (max_text_length : option Z)
    (agg : option Aggregation) (w : World Construction)
    (mc mk : option InputModule)
    (input_size : InputSize) (ds : list (PyDict.t Size)) :
  (if tags_truth continuous_tags
   then ContinuousFeatures_from_column_group column_group continuous_tags
          continuous_tags_to_filter
   else Ok None) = Ok mc ->
  (if tags_truth categorical_tags
   then EmbeddingFeatures_from_column_group column_group categorical_tags
          categorical_tags_to_filter
   else Ok None) = Ok mk ->
  Forall2 (fun m d => module_forward_output_size m input_size = Ok d)
    (configured mc mk text_model) ds ->
  Forall PyDict.wf ds ->
  exists self w',
    TabularFeatures.from_column_group column_group
      continuous_tags continuous_tags_to_filter
      categorical_tags categorical_tags_to_filter
      text_model text_tags text_tags_to_filter max_text_length agg w
    = (Ok self, w')
    /\ TabularFeatures.forward_output_size self input_size
       = super_forward_output_size agg (union_all ds).
Proof.
  intros Hc Hk Hall Hwf.
  unfold TabularFeatures.from_column_group, py_bind.
  rewrite extern_if_trace, Hc. cbv beta iota.
  rewrite extern_if_trace, Hk. cbv beta iota.
  rewrite init_returns. do 2 eexists. split; [reflexivity|].
  unfold TabularFeatures.forward_output_size. simpl.
  rewrite (collect_output_sizes_union _ _ ds) by
    (try assumption; constructor).
  reflexivity.
Qed.

End FactoryOutputSize.

Lemma from_column_group_then_forward_output_size_demo :
  exists (self : @TabularFeatures.t Demo.world) w',
    TabularFeatures.from_column_group (H := Demo.world) ["price"; "item_id"]
      (TagsOne CONTINUOUS) TagsNone (TagsOne CATEGORICAL) TagsNone
      None (TagsOne TEXT_TOKENIZED) TagsNone None None Demo.start
    = (Ok self, w')
    /\ TabularFeatures.forward_output_size self []
       = Ok [("price", [-1; 64]); ("item_id", [-1; 64])].
Proof.
  apply (from_column_group_then_forward_output_size (H := Demo.world)
           ["price"; "item_id"]
           (TagsOne CONTINUOUS) TagsNone (TagsOne CATEGORICAL) TagsNone
           None (TagsOne TEXT_TOKENIZED) TagsNone None None Demo.start
           (Some (Demo.mkModule "continuous" true
                    [("price", [-1; 1]); ("item_id", [-1; 1])]))
           (Some (Demo.mkModule "categorical" true
                    [("price", [-1; 64]); ("item_id", [-1; 64])]))
           []
           [[("price", [-1; 1]); ("item_id", [-1; 1])];
            [("price", [-1; 64]); ("item_id", [-1; 64])]]).
  - reflexivity.
  - reflexivity.
  - repeat constructor.
  - repeat constructor; simpl; intuition discriminate.
Defined.
